(** * BigQuery daily cost monitoring: a shallow embedding of
      [src/cloudrun/main.py] and the properties of its pipeline.

    The job reads two settings from the process environment, asks the
    billing export for yesterday's BigQuery cost per project, turns every
    row into a one-point gauge time series and writes the series to Cloud
    Monitoring in batches of 200.

    The two client libraries are interfaces here: a backend is any state
    type with transition functions for the four remote calls, so a theorem
    proved in the sections below holds for every behaviour of the metrics
    backend and of the data warehouse.  Python exceptions are values of
    [result]; the state threaded through the code carries the clock, the
    backend, the sequence of remote calls made so far and the log.

    The messages of the monitoring library are read and written as that
    library has it: a Timestamp field that is not set reads as [None], and a
    missing key of a label map reads as the empty string.  The first of the
    two decides what [create_time_series] does, and with it what [main] does
    on a query result that is not empty. *)

From Stdlib Require Import ZArith Floats Lia.
From stdpp Require Import base option list strings gmap.

Local Open Scope string_scope.
Local Open Scope list_scope.

(** ** Exceptions and results *)

(** An instance of Python's [Exception]: its class and what [str(e)] gives.
    Failures of the client libraries are of this kind
    (google.api_core.exceptions.GoogleAPICallError and its subclasses). *)
Record exn := Exn { exn_class : string; exn_str : string }.

Inductive result (A : Type) : Type :=
| Ok (a : A)
| Raise (e : exn).
Arguments Ok {A} a.
Arguments Raise {A} e.

Definition ValueError (msg : string) : exn := Exn "ValueError" msg.
Definition OverflowError (msg : string) : exn := Exn "OverflowError" msg.
Definition AttributeError (msg : string) : exn := Exn "AttributeError" msg.

(** ** The [datetime] library, as far as the job uses it

    A [date] is its proleptic Gregorian ordinal ([date.toordinal()], day 1
    is 0001-01-01), the representation on which the library does date
    arithmetic.  Every datetime of the job is aware and in UTC, so the
    [tzinfo] field is left out. *)

Definition date := Z.
Bind Scope Z_scope with date.
Definition MAXORDINAL : Z := 3652059.   (* date(9999, 12, 31).toordinal() *)

Record time := Time { hour : Z; minute : Z; second : Z; microsecond : Z }.
Record datetime := Datetime { dt_date : date; dt_time : time }.
Record timedelta := Timedelta { td_days : Z; td_seconds : Z; td_microseconds : Z }.

Definition time_min : time := Time 0 0 0 0.

(** [timedelta(days, seconds, microseconds)]: the constructor normalises to
    [0 <= seconds < 86400] and [0 <= microseconds < 1000000]. *)
Definition mk_timedelta (days seconds microseconds : Z) : timedelta :=
  let s := (seconds + microseconds / 1000000)%Z in
  Timedelta (days + s / 86400) (s mod 86400) (microseconds mod 1000000).

Definition seconds_of_day (t : time) : Z :=
  (second t + minute t * 60 + hour t * 3600)%Z.

(** [datetime.date()] *)
Definition datetime_date (d : datetime) : date := dt_date d.

(** [date - timedelta]: [date.__add__] of the negated days; the result must
    be an ordinal in [1, MAXORDINAL]. *)
Definition date_sub_timedelta (d : date) (delta : timedelta) : result date :=
  let o := (d + - td_days delta)%Z in
  if bool_decide (0 < o <= MAXORDINAL)%Z then Ok o
  else Raise (OverflowError "date value out of range").

(** [datetime.combine(date, time, tzinfo=utc)] *)
Definition datetime_combine (d : date) (t : time) : datetime := Datetime d t.

(** [datetime - timedelta] ([datetime.__add__] of the negated delta). *)
Definition datetime_sub_timedelta (d : datetime) (delta : timedelta) : result datetime :=
  let t := dt_time d in
  let sum :=
    mk_timedelta (dt_date d - td_days delta)
                 (seconds_of_day t - td_seconds delta)
                 (microsecond t - td_microseconds delta) in
  let h := (td_seconds sum / 3600)%Z in
  let rem := (td_seconds sum mod 3600)%Z in
  if bool_decide (0 < td_days sum <= MAXORDINAL)%Z then
    Ok (datetime_combine (td_days sum)
          (Time h (rem / 60) (rem mod 60) (td_microseconds sum)))
  else Raise (OverflowError "date value out of range").

(** [datetime - datetime] of two aware datetimes with the same offset. *)
Definition datetime_sub (a b : datetime) : timedelta :=
  mk_timedelta (dt_date a - dt_date b)
               (seconds_of_day (dt_time a) - seconds_of_day (dt_time b))
               (microsecond (dt_time a) - microsecond (dt_time b)).

(** protobuf's [Timestamp]; [FromDatetime] of an aware datetime counts the
    seconds from 1970-01-01 (ordinal 719163). *)
Record Timestamp := MkTimestamp { ts_seconds : Z; ts_nanos : Z }.

Definition FromDatetime (d : datetime) : Timestamp :=
  MkTimestamp ((dt_date d - 719163) * 86400 + seconds_of_day (dt_time d))
              (microsecond (dt_time d) * 1000).

(** ** Messages of the remote interfaces *)

Inductive MetricKind := GAUGE | DELTA | CUMULATIVE.
Inductive ValueType := BOOL | INT64 | DOUBLE | STRING | DISTRIBUTION.

Record LabelDescriptor := MkLabelDescriptor {
  ld_key : string;
  ld_value_type : ValueType;
  ld_description : string
}.

Record MetricDescriptor := MkMetricDescriptor {
  md_type : string;
  md_metric_kind : MetricKind;
  md_value_type : ValueType;
  md_description : string;
  md_display_name : string;
  md_labels : list LabelDescriptor
}.

(** A point of a series.  The end of its interval is a message field: it
    is either set to a timestamp or not set. *)
Record Point := MkPoint {
  double_value : float;
  interval_end_time : option Timestamp
}.

(** [obj.CopyFrom(other)], where [obj] is what reading a Timestamp field of
    a [monitoring_v3] message gives.  The messages of [monitoring_v3] are
    proto-plus wrappers (their fields are assigned to, as [series.points] is
    in [create_time_series]), and reading a Timestamp field of a wrapper gives
    [None] when the field is not set and a [DatetimeWithNanoseconds] when it
    is; neither has an attribute [CopyFrom], so the lookup of the method
    raises. *)
Definition CopyFrom (obj : option Timestamp) (other : Timestamp) : result unit :=
  match obj with
  | None =>
      Raise (AttributeError "'NoneType' object has no attribute 'CopyFrom'")
  | Some _ =>
      Raise (AttributeError
               "'DatetimeWithNanoseconds' object has no attribute 'CopyFrom'")
  end.

Record TimeSeries := MkTimeSeries {
  metric_type : string;
  resource_type : string;
  metric_labels : gmap string string;
  points : list Point;
  metric_kind : MetricKind;
  value_type : ValueType
}.

(** A row of the aggregation query: [(project_id: string, daily_cost)];
    the billing export's [cost] column is FLOAT64. *)
Record Row := MkRow { project_id : string; daily_cost : float }.

Record ScalarQueryParameter := MkScalarQueryParameter {
  qp_name : string;
  qp_type : string;
  qp_value : datetime
}.

Record QueryJobConfig := MkQueryJobConfig {
  query_parameters : list ScalarQueryParameter
}.

(** ** Logging

    An f-string is kept as its pieces, literal text and formatted values,
    so that what a record reports can be read back from it. *)
Inductive piece :=
| Lit (s : string)              (* literal text *)
| FStr (s : string)             (* {s} of a str *)
| FInt (n : nat)                (* {n} of an int *)
| FExc (e : exn)                (* {e} of an exception *)
| FList (l : list string)       (* {l} of a list of str *)
| FMoney (x : float)            (* {x:.2f} *)
| FIso (d : datetime).          (* {d.isoformat()} *)

Definition message := list piece.

Inductive level := INFO | WARNING | ERROR.
Record LogRecord := MkLogRecord { lr_level : level; lr_message : message }.

(** ** Remote calls and their outcomes, as seen from the job *)
Inductive Event :=
| EvGetMetricDescriptor (name : string) (r : result unit)
| EvCreateMetricDescriptor (name : string) (d : MetricDescriptor) (r : result unit)
| EvCreateTimeSeries (name : string) (batch : list TimeSeries) (r : result unit)
| EvQuery (sql : string) (job_config : QueryJobConfig) (r : result (list Row)).

(** The two client libraries over a backend state [B]. *)
Class MetricServiceClient (B : Type) := {
  api_get_metric_descriptor : string -> B -> result unit * B;
  api_create_metric_descriptor : string -> MetricDescriptor -> B -> result unit * B;
  api_create_time_series : string -> list TimeSeries -> B -> result unit * B
}.

(** [bq_client.query(query, job_config).result()], read into a list. *)
Class BigQueryClient (B : Type) := {
  api_query : string -> QueryJobConfig -> B -> result (list Row) * B
}.

(** ** The state of an invocation and the monad of the job *)
Record World (B : Type) := MkWorld {
  w_clock : datetime;           (* what datetime.now(timezone.utc) returns *)
  w_backend : B;
  w_trace : list Event;
  w_log : list LogRecord
}.
Arguments MkWorld {B}.
Arguments w_clock {B}.
Arguments w_backend {B}.
Arguments w_trace {B}.
Arguments w_log {B}.

Definition M (B A : Type) : Type := World B -> result A * World B.

Definition ret {B A} (a : A) : M B A := fun w => (Ok a, w).

Definition raise {B A} (e : exn) : M B A := fun w => (Raise e, w).

Definition bind {B A C} (c : M B A) (k : A -> M B C) : M B C :=
  fun w =>
    match c w with
    | (Ok a, w') => k a w'
    | (Raise e, w') => (Raise e, w')
    end.

(** [try: c except Exception as e: h e] *)
Definition try_except {B A} (c : M B A) (h : exn -> M B A) : M B A :=
  fun w =>
    match c w with
    | (Ok a, w') => (Ok a, w')
    | (Raise e, w') => h e w'
    end.

Notation "x <- c ;; k" := (bind c (fun x => k))
  (at level 100, c at next level, right associativity).
Notation "c ;;; k" := (bind c (fun _ => k))
  (at level 100, right associativity).

(** [for x in xs: body x] *)
Fixpoint for_each {B A} (xs : list A) (body : A -> M B unit) : M B unit :=
  match xs with
  | [] => ret tt
  | x :: rest => body x ;;; for_each rest body
  end.

(** A list comprehension whose element expression may raise. *)
Fixpoint comprehension {B A C} (f : A -> M B C) (xs : list A) : M B (list C) :=
  match xs with
  | [] => ret []
  | x :: rest => y <- f x ;; ys <- comprehension f rest ;; ret (y :: ys)
  end.

Definition add_log {B} (lv : level) (msg : message) : M B unit :=
  fun w => (Ok tt, MkWorld (w_clock w) (w_backend w) (w_trace w)
                           (w_log w ++ [MkLogRecord lv msg])).

Definition logger_info {B} := @add_log B INFO.
Definition logger_warning {B} := @add_log B WARNING.
Definition logger_error {B} := @add_log B ERROR.

(** [datetime.datetime.now(datetime.timezone.utc)] *)
Definition datetime_now {B} : M B datetime := fun w => (Ok (w_clock w), w).

Definition lift_result {B A} (r : result A) : M B A := fun w => (r, w).

(** Python's truth value of [None] or a [str]. *)
Definition truthy (o : option string) : bool :=
  match o with
  | None => false
  | Some s => negb (bool_decide (s = ""))
  end.

(** [f"{x}"] of a value that is [None] or a [str]. *)
Definition format_opt (o : option string) : string :=
  match o with
  | None => "None"
  | Some s => s
  end.

(** [range(start, stop, step)] for a positive step. *)
Definition range (start stop step : nat) : list nat :=
  map (fun k => start + k * step) (seq 0 ((stop - start + (step - 1)) / step)).

(** [l[i:j]] for [0 <= i <= j]. *)
Definition slice {A} (l : list A) (i j : nat) : list A := take (j - i) (drop i l).

(** [m[key]] of a protobuf map field with string values: a missing key
    reads as the empty string.  (The read also adds the key to the map; the
    job does not look at a series again after reading its labels.) *)
Definition getitem {B} (m : gmap string string) (key : string) : M B string :=
  ret (default "" (m !! key)).

(** ** The program *)

(** The text of the aggregation statement before and after the [{table}]
    field of the format string. *)
Definition query_before_table : string :=
  "
        SELECT
            project.id AS project_id,
            SUM(cost) AS daily_cost
        FROM
            `".

Definition query_after_table : string :=
  "`
        WHERE
            service.description = 'BigQuery'
            AND usage_start_time >= @start_time
            AND usage_start_time < @end_time
            AND cost > 0
        GROUP BY
            project_id
        HAVING
            daily_cost > 0
    ".

Section Program.
Context {B : Type} `{!MetricServiceClient B} `{!BigQueryClient B}.

(** [os.environ] at import time. *)
Variable environ : gmap string string.

(** Python's built-in [sum] over the costs; how it adds floats depends on
    the interpreter's version, and nothing below depends on it. *)
Variable sum_floats : list float -> float.

(** *** Configuration *)
Definition BILLING_TABLE : string :=
  default "your-project.your_dataset.gcp_billing_export_v1_*"
          (environ !! "BILLING_TABLE").

Definition MONITORING_PROJECT_ID : option string := environ !! "GCP_PROJECT".

Definition CUSTOM_METRIC_TYPE : string :=
  "custom.googleapis.com/billing/bigquery/daily_cost".

(** *** The calls of the two clients, each recorded with its outcome *)
Definition monitoring_client_get_metric_descriptor (name : string) : M B unit :=
  fun w =>
    let '(r, b) := api_get_metric_descriptor name (w_backend w) in
    (r, MkWorld (w_clock w) b
                (w_trace w ++ [EvGetMetricDescriptor name r]) (w_log w)).

Definition monitoring_client_create_metric_descriptor
    (name : string) (metric_descriptor : MetricDescriptor) : M B unit :=
  fun w =>
    let '(r, b) := api_create_metric_descriptor name metric_descriptor (w_backend w) in
    (r, MkWorld (w_clock w) b
                (w_trace w ++ [EvCreateMetricDescriptor name metric_descriptor r])
                (w_log w)).

Definition monitoring_client_create_time_series
    (name : string) (time_series : list TimeSeries) : M B unit :=
  fun w =>
    let '(r, b) := api_create_time_series name time_series (w_backend w) in
    (r, MkWorld (w_clock w) b
                (w_trace w ++ [EvCreateTimeSeries name time_series r]) (w_log w)).

Definition bq_client_query (sql : string) (job_config : QueryJobConfig)
    : M B (list Row) :=
  fun w =>
    let '(r, b) := api_query sql job_config (w_backend w) in
    (r, MkWorld (w_clock w) b (w_trace w ++ [EvQuery sql job_config r]) (w_log w)).

(** *** ensure_metric_descriptor_exists *)
Definition the_descriptor : MetricDescriptor :=
  MkMetricDescriptor CUSTOM_METRIC_TYPE GAUGE DOUBLE
    "Daily BigQuery cost per project in USD" "BigQuery Daily Cost"
    [MkLabelDescriptor "project_id" STRING "GCP Project ID"].

(** The first [try] either returns from the function or falls through to the
    creation; its value here tells which. *)
Definition ensure_metric_descriptor_exists : M B unit :=
  let project_name := "projects/" +:+ format_opt MONITORING_PROJECT_ID in
  returned <-
    try_except
      (let metric_name :=
         project_name +:+ "/metricDescriptors/" +:+ CUSTOM_METRIC_TYPE in
       monitoring_client_get_metric_descriptor metric_name ;;;
       logger_info [Lit "Metric descriptor "; FStr CUSTOM_METRIC_TYPE;
                    Lit " already exists."] ;;;
       ret true)
      (fun _ =>
         logger_info [Lit "Metric descriptor "; FStr CUSTOM_METRIC_TYPE;
                      Lit " not found. Creating..."] ;;;
         ret false) ;;
  if (returned : bool) then ret tt
  else
    let descriptor := the_descriptor in
    try_except
      (monitoring_client_create_metric_descriptor project_name descriptor ;;;
       logger_info [Lit "Created metric descriptor: "; FStr CUSTOM_METRIC_TYPE])
      (fun e =>
         logger_warning
           [Lit "Failed to create metric descriptor (may already exist): "; FExc e]).

(** *** get_previous_day_range *)
Definition get_previous_day_range : M B (datetime * datetime) :=
  now <- datetime_now ;;
  let today := datetime_date now in
  yesterday <- lift_result (date_sub_timedelta today (mk_timedelta 1 0 0)) ;;
  let start_time := datetime_combine yesterday time_min in
  let end_time := datetime_combine today time_min in
  ret (start_time, end_time).

(** *** fetch_bigquery_costs *)
Definition the_query : string :=
  query_before_table +:+ BILLING_TABLE +:+ query_after_table.

Definition fetch_bigquery_costs (start_time end_time : datetime) : M B (list Row) :=
  let query := the_query in
  let job_config :=
    MkQueryJobConfig
      [MkScalarQueryParameter "start_time" "TIMESTAMP" start_time;
       MkScalarQueryParameter "end_time" "TIMESTAMP" end_time] in
  logger_info [Lit "Querying billing data from "; FIso start_time;
               Lit " to "; FIso end_time] ;;;
  results <- bq_client_query query job_config ;;
  ret results.

(** *** create_time_series

    [float(daily_cost)] of a float is the float itself.  The point is a
    fresh [monitoring_v3.Point()]: the end of its interval is not set when
    [CopyFrom] is called on what reading it gives. *)
Definition create_time_series
    (project_id : string) (daily_cost : float) (timestamp : Timestamp)
    : result TimeSeries :=
  let labels := <["project_id" := project_id]> ∅ in
  let point := MkPoint daily_cost None in
  match CopyFrom (interval_end_time point) timestamp with
  | Raise e => Raise e
  | Ok _ =>
      Ok (MkTimeSeries CUSTOM_METRIC_TYPE "global" labels [point]
                       GAUGE DOUBLE)
  end.

(** *** write_metrics_to_monitoring *)
Definition batch_size : nat := 200.

(** The body of the loop over [range(0, len(time_series_list), batch_size)]. *)
Definition write_batch (time_series_list : list TimeSeries) (i : nat) : M B unit :=
  let project_name := "projects/" +:+ format_opt MONITORING_PROJECT_ID in
  let batch := slice time_series_list i (i + batch_size) in
  try_except
    (monitoring_client_create_time_series project_name batch ;;;
     logger_info [Lit "Successfully wrote batch of "; FInt (length batch);
                  Lit " time series (total: "; FInt (i + length batch);
                  Lit "/"; FInt (length time_series_list); Lit ")"])
    (fun e =>
       logger_error [Lit "Failed to write time series batch: "; FExc e] ;;;
       failed_projects <-
         comprehension (fun ts => getitem (metric_labels ts) "project_id") batch ;;
       logger_error [Lit "Failed projects: "; FList failed_projects] ;;;
       raise e).

Definition write_metrics_to_monitoring (time_series_list : list TimeSeries) : M B unit :=
  match time_series_list with
  | [] => logger_info [Lit "No time series data to write."]
  | _ :: _ =>
      for_each (range 0 (length time_series_list) batch_size)
               (write_batch time_series_list)
  end.

(** *** main *)

(** The loop of [main] over the rows, appending to [time_series_list]. *)
Fixpoint build_series (results : list Row) (metric_timestamp : Timestamp)
    (time_series_list : list TimeSeries) : M B (list TimeSeries) :=
  match results with
  | [] => ret time_series_list
  | row :: rest =>
      let project_id := project_id row in
      let daily_cost := daily_cost row in
      logger_info [Lit "Project: "; FStr project_id; Lit ", Cost: $";
                   FMoney daily_cost] ;;;
      series <-
        lift_result (create_time_series project_id daily_cost metric_timestamp) ;;
      build_series rest metric_timestamp (time_series_list ++ [series])
  end.

Definition main_body : M B (message * Z) :=
  logger_info [Lit "Starting BigQuery daily cost monitoring function"] ;;;
  (if truthy MONITORING_PROJECT_ID then ret tt
   else raise (ValueError "GCP_PROJECT environment variable not set")) ;;;
  ensure_metric_descriptor_exists ;;;
  window <- get_previous_day_range ;;
  let '(start_time, end_time) := window in
  results <- fetch_bigquery_costs start_time end_time ;;
  match results with
  | [] =>
      logger_info [Lit "No BigQuery costs found for the previous day"] ;;;
      ret ([Lit "No data to report"], 200%Z)
  | _ :: _ =>
      let metric_timestamp := FromDatetime end_time in
      time_series_list <- build_series results metric_timestamp [] ;;
      write_metrics_to_monitoring time_series_list ;;;
      let total_cost := sum_floats (map daily_cost results) in
      logger_info [Lit "Successfully processed "; FInt (length time_series_list);
                   Lit " projects. Total cost: $"; FMoney total_cost] ;;;
      ret ([Lit "Successfully wrote metrics for "; FInt (length time_series_list);
            Lit " projects. Total cost: $"; FMoney total_cost], 200%Z)
  end.

(** The request is not looked at. *)
Definition main (request : string) : M B (message * Z) :=
  try_except main_body
    (fun e =>
       logger_error [Lit "Function failed with error: "; FExc e] ;;;
       ret ([Lit "Error: "; FStr (exn_str e)], 500%Z)).

End Program.

(** ** What a run adds to the trace and to the log *)
Definition new_events {B} (w w' : World B) : list Event :=
  drop (length (w_trace w)) (w_trace w').

Definition new_log {B} (w w' : World B) : list LogRecord :=
  drop (length (w_log w)) (w_log w').

(** The batches handed to the write calls among some events, in order. *)
Definition written_batches (evs : list Event) : list (list TimeSeries) :=
  omap (fun ev => match ev with
                  | EvCreateTimeSeries _ batch _ => Some batch
                  | _ => None
                  end) evs.

(** The slices that the loop of [write_metrics_to_monitoring] takes. *)
Definition batches (time_series_list : list TimeSeries) : list (list TimeSeries) :=
  map (fun i => slice time_series_list i (i + batch_size))
      (range 0 (length time_series_list) batch_size).

(** The backend shows a descriptor once its creation has succeeded. *)
Definition descriptor_visible_after_create {B} `{!MetricServiceClient B} : Prop :=
  forall parent d b b',
    api_create_metric_descriptor parent d b = (Ok tt, b') ->
    (api_get_metric_descriptor
       (parent +:+ "/metricDescriptors/" +:+ md_type d) b').1 = Ok tt.

(** ** An in-memory backend

    Descriptors and points are kept in lists; [fk_answer] is what the
    warehouse answers, and [fk_write_budget], when set, is the number of
    writes that succeed before one is refused. *)
Definition backend_error : exn := Exn "InternalServerError" "500 backend error".

Record Fake := MkFake {
  fk_descriptors : list string;
  fk_series : list TimeSeries;
  fk_answer : result (list Row);
  fk_write_budget : option nat
}.

Definition fake_get_metric_descriptor (name : string) (b : Fake) : result unit * Fake :=
  if bool_decide (name ∈ fk_descriptors b) then (Ok tt, b)
  else (Raise (Exn "NotFound" ("404 Could not find descriptor " +:+ name)), b).

Definition fake_create_metric_descriptor
    (parent : string) (d : MetricDescriptor) (b : Fake) : result unit * Fake :=
  let name := parent +:+ "/metricDescriptors/" +:+ md_type d in
  if bool_decide (name ∈ fk_descriptors b)
  then (Raise (Exn "AlreadyExists" ("409 " +:+ name)), b)
  else (Ok tt, MkFake (name :: fk_descriptors b) (fk_series b) (fk_answer b)
                      (fk_write_budget b)).

Definition fake_create_time_series
    (name : string) (batch : list TimeSeries) (b : Fake) : result unit * Fake :=
  match fk_write_budget b with
  | Some 0 => (Raise backend_error, b)
  | Some (S n) =>
      (Ok tt, MkFake (fk_descriptors b) (fk_series b ++ batch) (fk_answer b) (Some n))
  | None =>
      (Ok tt, MkFake (fk_descriptors b) (fk_series b ++ batch) (fk_answer b) None)
  end.

Definition fake_query (sql : string) (cfg : QueryJobConfig) (b : Fake)
    : result (list Row) * Fake :=
  (fk_answer b, b).

#[global] Instance fake_monitoring : MetricServiceClient Fake := {
  api_get_metric_descriptor := fake_get_metric_descriptor;
  api_create_metric_descriptor := fake_create_metric_descriptor;
  api_create_time_series := fake_create_time_series
}.

#[global] Instance fake_bigquery : BigQueryClient Fake := {
  api_query := fake_query
}.

(** Noon of 2024-06-15 (ordinal 739052). *)
Definition a_clock : datetime := Datetime 739052 (Time 12 0 0 0).

Definition fake_world (b : Fake) : World Fake := MkWorld a_clock b [] [].

Definition an_environ : gmap string string :=
  <["GCP_PROJECT" := "ops-monitoring"]> ∅.

Definition a_series : TimeSeries :=
  MkTimeSeries CUSTOM_METRIC_TYPE "global" (<["project_id" := "proj-a"]> ∅)
    [MkPoint 1%float (Some (MkTimestamp 1718409600 0))] GAUGE DOUBLE.

(** A sum of floats from left to right, starting from 0. *)
Definition float_sum (xs : list float) : float :=
  fold_left (fun acc x => (acc + x)%float) xs 0%float.

Definition two_rows : list Row :=
  [MkRow "proj-a" 12.5%float; MkRow "proj-b" 3.25%float].

(** ** Names and log records of the provisioner *)
Definition project_name (environ : gmap string string) : string :=
  "projects/" +:+ format_opt (MONITORING_PROJECT_ID environ).

Definition metric_name (environ : gmap string string) : string :=
  project_name environ +:+ "/metricDescriptors/" +:+ CUSTOM_METRIC_TYPE.

Definition log_exists : LogRecord :=
  MkLogRecord INFO [Lit "Metric descriptor "; FStr CUSTOM_METRIC_TYPE;
                    Lit " already exists."].

Definition log_not_found : LogRecord :=
  MkLogRecord INFO [Lit "Metric descriptor "; FStr CUSTOM_METRIC_TYPE;
                    Lit " not found. Creating..."].

Definition log_created : LogRecord :=
  MkLogRecord INFO [Lit "Created metric descriptor: "; FStr CUSTOM_METRIC_TYPE].

Definition log_create_failed (e : exn) : LogRecord :=
  MkLogRecord WARNING
    [Lit "Failed to create metric descriptor (may already exist): "; FExc e].

(** ** Log records of the publisher *)
Definition log_write_failed (e : exn) : LogRecord :=
  MkLogRecord ERROR [Lit "Failed to write time series batch: "; FExc e].

Definition log_failed_projects (ids : list string) : LogRecord :=
  MkLogRecord ERROR [Lit "Failed projects: "; FList ids].

Definition log_batch_written (time_series_list : list TimeSeries) (i : nat) : LogRecord :=
  let batch := slice time_series_list i (i + batch_size) in
  MkLogRecord INFO
    [Lit "Successfully wrote batch of "; FInt (length batch);
     Lit " time series (total: "; FInt (i + length batch);
     Lit "/"; FInt (length time_series_list); Lit ")"].

Definition is_info (r : LogRecord) : Prop := lr_level r = INFO.

(** A write call of the job, with its outcome. *)
Definition write_event (environ : gmap string string) :=
  EvCreateTimeSeries (project_name environ).

(** What the handler of a refused write lists: the project identifier of
    every series of the batch, the empty string for a series without one. *)
Definition failed_projects (batch : list TimeSeries) : list string :=
  map (fun ts => default "" (metric_labels ts !! "project_id")) batch.

(** No write among the events was refused. *)
Definition no_write_failed (evs : list Event) : bool :=
  forallb (fun ev => match ev with
                     | EvCreateTimeSeries _ _ (Raise _) => false
                     | _ => true
                     end) evs.

(** ** Responses and records of the orchestrator *)
Definition error_response (e : exn) : message * Z :=
  ([Lit "Error: "; FStr (exn_str e)], 500%Z).

Definition no_data_response : message * Z := ([Lit "No data to report"], 200%Z).

Definition success_response (projects : nat) (total_cost : float) : message * Z :=
  ([Lit "Successfully wrote metrics for "; FInt projects;
    Lit " projects. Total cost: $"; FMoney total_cost], 200%Z).

Definition log_function_failed (e : exn) : LogRecord :=
  MkLogRecord ERROR [Lit "Function failed with error: "; FExc e].

(** The bound parameters of the aggregation statement for a window. *)
Definition window_parameters (start_time end_time : datetime) : QueryJobConfig :=
  MkQueryJobConfig
    [MkScalarQueryParameter "start_time" "TIMESTAMP" start_time;
     MkScalarQueryParameter "end_time" "TIMESTAMP" end_time].

(** The exception that [create_time_series] raises. *)
Definition copy_from_error : exn :=
  AttributeError "'NoneType' object has no attribute 'CopyFrom'".

(** Midnight UTC of the date of an instant. *)
Definition midnight (now : datetime) : datetime :=
  datetime_combine (datetime_date now) time_min.

Definition is_descriptor_event (ev : Event) : Prop :=
  match ev with
  | EvGetMetricDescriptor _ _ | EvCreateMetricDescriptor _ _ _ => True
  | _ => False
  end.

Definition is_write_event (ev : Event) : Prop :=
  match ev with
  | EvCreateTimeSeries _ _ _ => True
  | _ => False
  end.

(** ** Records of the orchestrator's log, and a world with records added *)
Definition log_starting : LogRecord :=
  MkLogRecord INFO [Lit "Starting BigQuery daily cost monitoring function"].

Definition log_querying (start_time end_time : datetime) : LogRecord :=
  MkLogRecord INFO [Lit "Querying billing data from "; FIso start_time;
                    Lit " to "; FIso end_time].

Definition log_no_costs : LogRecord :=
  MkLogRecord INFO [Lit "No BigQuery costs found for the previous day"].

Definition log_project_cost (row : Row) : LogRecord :=
  MkLogRecord INFO [Lit "Project: "; FStr (project_id row); Lit ", Cost: $";
                    FMoney (daily_cost row)].

Definition with_log {B} (w : World B) (recs : list LogRecord) : World B :=
  MkWorld (w_clock w) (w_backend w) (w_trace w) (w_log w ++ recs).

(** The batches of the write calls that were accepted, in order. *)
Definition accepted_batches (evs : list Event) : list (list TimeSeries) :=
  omap (fun ev => match ev with
                  | EvCreateTimeSeries _ batch (Ok _) => Some batch
                  | _ => None
                  end) evs.

(** What the provisioner logs after a creation attempt. *)
Definition log_creation (c : result unit) : LogRecord :=
  match c with
  | Ok _ => log_created
  | Raise e => log_create_failed e
  end.

(** The calls and the records of a run of the provisioner. *)
Definition provisioner_run (environ : gmap string string)
    (ens : list Event) (elog : list LogRecord) : Prop :=
  (ens = [EvGetMetricDescriptor (metric_name environ) (Ok tt)] /\
   elog = [log_exists])
  \/
  (exists e c,
     ens = [EvGetMetricDescriptor (metric_name environ) (Raise e);
            EvCreateMetricDescriptor (project_name environ) the_descriptor c] /\
     elog = [log_not_found; log_creation c]).

Definition is_query_event (ev : Event) : Prop :=
  match ev with
  | EvQuery _ _ _ => True
  | _ => False
  end.

(** A series that carries no project identifier. *)
Definition an_unlabelled_series : TimeSeries :=
  MkTimeSeries CUSTOM_METRIC_TYPE "global" ∅
    [MkPoint 1%float (Some (MkTimestamp 1718409600 0))] GAUGE DOUBLE.

(** An environment in which the table reference is set to the empty text. *)
Definition an_environ_with_empty_table : gmap string string :=
  <["BILLING_TABLE" := ""]> an_environ.

(** * Properties *)

Lemma new_events_app {B} (w w' : World B) evs :
  w_trace w' = w_trace w ++ evs -> new_events w w' = evs.
Proof. intros E. unfold new_events. rewrite E. apply drop_app_length. Qed.

Lemma new_log_app {B} (w w' : World B) recs :
  w_log w' = w_log w ++ recs -> new_log w w' = recs.
Proof. intros E. unfold new_log. rewrite E. apply drop_app_length. Qed.

Ltac unfold_monad :=
  unfold bind, ret, raise, try_except, lift_result, datetime_now,
    logger_info, logger_warning, logger_error, add_log in *.

Section TimeWindow.
Context {B : Type}.

Lemma timedelta_one_day : mk_timedelta 1 0 0 = Timedelta 1 0 0.
Proof. reflexivity. Qed.

(** One day before a date after the first one is a date. *)
Lemma date_sub_one_day (d : date) :
  (1 < d <= MAXORDINAL)%Z ->
  date_sub_timedelta d (mk_timedelta 1 0 0) = Ok (d - 1)%Z.
Proof.
  intros Hd. rewrite timedelta_one_day. unfold date_sub_timedelta. cbn [td_days].
  rewrite bool_decide_eq_true_2 by (unfold MAXORDINAL in *; lia).
  f_equal.
Qed.

Lemma midnight_minus_one_day (d : date) :
  (1 < d <= MAXORDINAL)%Z ->
  datetime_sub_timedelta (datetime_combine d time_min) (mk_timedelta 1 0 0)
  = Ok (datetime_combine (d - 1)%Z time_min).
Proof.
  intros Hd. rewrite timedelta_one_day.
  unfold datetime_sub_timedelta, datetime_combine, time_min, seconds_of_day.
  cbn [dt_date dt_time td_days td_seconds td_microseconds hour minute second microsecond].
  replace (mk_timedelta (d - 1) (0 + 0 * 60 + 0 * 3600 - 0) (0 - 0))
    with (Timedelta (d - 1) 0 0).
  - cbn [td_days td_seconds td_microseconds].
    by rewrite bool_decide_eq_true_2 by (unfold MAXORDINAL in *; lia).
  - unfold mk_timedelta. f_equal. change ((0 + 0 * 60 + 0 * 3600 - 0 + (0 - 0) / 1000000) / 86400)%Z with 0%Z. lia.
Qed.

Lemma midnights_one_day_apart (d : date) :
  datetime_sub (datetime_combine d time_min) (datetime_combine (d - 1)%Z time_min)
  = Timedelta 1 0 0.
Proof.
  unfold datetime_sub, mk_timedelta, datetime_combine, time_min, seconds_of_day.
  cbn [dt_date dt_time hour minute second microsecond].
  change ((0 + 0 * 60 + 0 * 3600 - (0 + 0 * 60 + 0 * 3600) + (0 - 0) / 1000000))%Z
    with 0%Z.
  change (0 / 86400)%Z with 0%Z. change (0 `mod` 86400)%Z with 0%Z.
  change ((0 - 0) `mod` 1000000)%Z with 0%Z.
  f_equal. lia.
Qed.

(** C6: for every invocation instant whose UTC date is later than
    0001-01-01, as the date of the system clock is,
    [get_previous_day_range] returns, without
    touching the state, the pair whose end is midnight of the instant's date
    and whose start is the end minus one calendar day, so that end - start is
    one day; the pair depends on the clock only. *)
Theorem get_previous_day_range_window (w : World B) :
  (1 < dt_date (w_clock w) <= MAXORDINAL)%Z ->
  exists start_time end_time,
    get_previous_day_range w = (Ok (start_time, end_time), w) /\
    end_time = datetime_combine (datetime_date (w_clock w)) time_min /\
    datetime_sub_timedelta end_time (mk_timedelta 1 0 0) = Ok start_time /\
    datetime_sub end_time start_time = Timedelta 1 0 0 /\
    forall w2 : World B,
      w_clock w2 = w_clock w ->
      (get_previous_day_range w2).1 = Ok (start_time, end_time).
Proof.
  intros Hd.
  exists (datetime_combine (dt_date (w_clock w) - 1)%Z time_min),
         (datetime_combine (dt_date (w_clock w)) time_min).
  assert (Hrun : forall w2 : World B, w_clock w2 = w_clock w ->
            get_previous_day_range w2
            = (Ok (datetime_combine (dt_date (w_clock w) - 1)%Z time_min,
                   datetime_combine (dt_date (w_clock w)) time_min), w2)).
  { intros w2 Hc. unfold get_previous_day_range. unfold_monad.
    unfold datetime_date. rewrite Hc, date_sub_one_day by done. done. }
  split; [by apply Hrun|]. split; [done|].
  split; [by apply midnight_minus_one_day|].
  split; [apply midnights_one_day_apart|].
  intros w2 Hc. by rewrite Hrun.
Qed.

End TimeWindow.

Lemma get_previous_day_range_window_witness :
  exists start_time end_time,
    get_previous_day_range (fake_world (MkFake [] [] (Ok []) None))
    = (Ok (start_time, end_time), fake_world (MkFake [] [] (Ok []) None)) /\
    end_time = Datetime 739052 time_min /\
    start_time = Datetime 739051 time_min.
Proof.
  destruct (get_previous_day_range_window (fake_world (MkFake [] [] (Ok []) None)))
    as (s & e & Hrun & He & Hs & _).
  - unfold MAXORDINAL. simpl. lia.
  - exists s, e. split; [exact Hrun|]. split; [exact He|].
    rewrite He in Hs. vm_compute in Hs. injection Hs as <-. reflexivity.
Defined.

Section Provisioner.
Context {B : Type} `{!MetricServiceClient B}.
Variable environ : gmap string string.

(** The three ways through [ensure_metric_descriptor_exists]. *)
Lemma ensure_run (w : World B) :
  ensure_metric_descriptor_exists environ w =
  match api_get_metric_descriptor (metric_name environ) (w_backend w) with
  | (Ok _, b1) =>
      (Ok tt, MkWorld (w_clock w) b1
                (w_trace w ++ [EvGetMetricDescriptor (metric_name environ) (Ok tt)])
                (w_log w ++ [log_exists]))
  | (Raise e, b1) =>
      match api_create_metric_descriptor (project_name environ) the_descriptor b1 with
      | (Ok _, b2) =>
          (Ok tt, MkWorld (w_clock w) b2
                    (w_trace w ++
                       [EvGetMetricDescriptor (metric_name environ) (Raise e);
                        EvCreateMetricDescriptor (project_name environ) the_descriptor (Ok tt)])
                    (w_log w ++ [log_not_found; log_created]))
      | (Raise e', b2) =>
          (Ok tt, MkWorld (w_clock w) b2
                    (w_trace w ++
                       [EvGetMetricDescriptor (metric_name environ) (Raise e);
                        EvCreateMetricDescriptor (project_name environ) the_descriptor (Raise e')])
                    (w_log w ++ [log_not_found; log_create_failed e']))
      end
  end.
Proof.
  unfold ensure_metric_descriptor_exists, monitoring_client_get_metric_descriptor,
    monitoring_client_create_metric_descriptor.
  unfold_monad. fold (project_name environ). fold (metric_name environ).
  destruct (api_get_metric_descriptor (metric_name environ) (w_backend w))
    as [[[]|e] b1]; cbn [w_clock w_backend w_trace w_log]; [done|].
  destruct (api_create_metric_descriptor (project_name environ) the_descriptor b1)
    as [[[]|e'] b2]; cbn [w_clock w_backend w_trace w_log];
    by rewrite <- !app_assoc.
Qed.

(** The provisioner returns, keeps the clock, and makes descriptor calls only. *)
Lemma ensure_returns (w : World B) :
  exists w',
    ensure_metric_descriptor_exists environ w = (Ok tt, w') /\
    w_clock w' = w_clock w /\
    exists r evs,
      w_trace w' = w_trace w ++ EvGetMetricDescriptor (metric_name environ) r :: evs /\
      Forall (fun ev => exists n d r', ev = EvCreateMetricDescriptor n d r') evs.
Proof.
  rewrite ensure_run.
  destruct (api_get_metric_descriptor _ _) as [[[]|e] b1].
  - eexists. split; [done|]. split; [done|]. by exists (Ok tt), [].
  - destruct (api_create_metric_descriptor _ _ _) as [[[]|e'] b2];
      (eexists; split; [done|]; split; [done|]; eexists _, [_]; split; [done|];
       repeat constructor; eauto).
Qed.

(** C3: [ensure_metric_descriptor_exists] returns normally whatever the
    metrics backend does.  When the lookup fails, with whatever exception, the
    creation is attempted; when the creation fails, the failure is logged as a
    warning and the call still returns.  Over a backend that shows a descriptor
    once its creation has succeeded, a second call right after a successful
    creation finds the descriptor and makes the lookup only. *)
Theorem ensure_metric_descriptor_exists_never_raises (w : World B) :
  let w' := (ensure_metric_descriptor_exists environ w).2 in
  (ensure_metric_descriptor_exists environ w).1 = Ok tt /\
  (forall e b1,
     api_get_metric_descriptor (metric_name environ) (w_backend w) = (Raise e, b1) ->
     exists r,
       new_events w w' =
       [EvGetMetricDescriptor (metric_name environ) (Raise e);
        EvCreateMetricDescriptor (project_name environ) the_descriptor r]) /\
  (forall parent d e',
     EvCreateMetricDescriptor parent d (Raise e') ∈ new_events w w' ->
     exists recs, new_log w w' = recs ++ [log_create_failed e']) /\
  (descriptor_visible_after_create ->
   forall parent d,
     EvCreateMetricDescriptor parent d (Ok tt) ∈ new_events w w' ->
     let w'' := (ensure_metric_descriptor_exists environ w').2 in
     (ensure_metric_descriptor_exists environ w').1 = Ok tt /\
     new_events w' w'' = [EvGetMetricDescriptor (metric_name environ) (Ok tt)]).
Proof.
  intros w'. subst w'. rewrite ensure_run.
  destruct (api_get_metric_descriptor (metric_name environ) (w_backend w))
    as [[[]|e] b1] eqn:Hget.
  - (* the descriptor is there *)
    cbn [fst snd]. split; [done|]. split; [intros ? ? [=]|].
    rewrite (new_events_app w _ [EvGetMetricDescriptor (metric_name environ) (Ok tt)])
      by done.
    split.
    + intros parent d e' Hin. apply list_elem_of_singleton in Hin. discriminate.
    + intros _ parent d Hin. apply list_elem_of_singleton in Hin. discriminate.
  - destruct (api_create_metric_descriptor (project_name environ) the_descriptor b1)
      as [[[]|e'] b2] eqn:Hcreate; cbn [fst snd].
    + (* created *)
      split; [done|].
      rewrite (new_events_app w _
        [EvGetMetricDescriptor (metric_name environ) (Raise e);
         EvCreateMetricDescriptor (project_name environ) the_descriptor (Ok tt)])
        by done.
      split; [intros ? ? [= <- _]; eauto|].
      split.
      * intros parent d e' Hin.
        apply elem_of_cons in Hin as [Hin|Hin]; [discriminate|].
        apply list_elem_of_singleton in Hin. discriminate.
      * intros Hvis parent d _.
        assert (Hv : (api_get_metric_descriptor (metric_name environ) b2).1 = Ok tt)
          by exact (Hvis _ _ _ _ Hcreate).
        clear Hvis. rename Hv into Hvis.
        rewrite ensure_run. cbn [w_backend].
        destruct (api_get_metric_descriptor (metric_name environ) b2)
          as [[[]|e2] b3]; cbn [fst] in Hvis; [|discriminate].
        cbn [fst snd]. split; [done|]. by apply new_events_app.
    + (* the creation failed *)
      split; [done|].
      rewrite (new_events_app w _
        [EvGetMetricDescriptor (metric_name environ) (Raise e);
         EvCreateMetricDescriptor (project_name environ) the_descriptor (Raise e')])
        by done.
      split; [intros ? ? [= <- _]; eauto|].
      split.
      * intros parent d e'' Hin.
        apply elem_of_cons in Hin as [Hin|Hin]; [discriminate|].
        apply list_elem_of_singleton in Hin. injection Hin as _ _ ->.
        exists [log_not_found]. by apply new_log_app.
      * intros _ parent d Hin.
        apply elem_of_cons in Hin as [Hin|Hin]; [discriminate|].
        apply list_elem_of_singleton in Hin. discriminate.
Qed.

End Provisioner.

Lemma fake_descriptor_visible : @descriptor_visible_after_create Fake _.
Proof.
  intros parent d b b' H. cbn in H |- *.
  unfold fake_create_metric_descriptor in H.
  unfold fake_get_metric_descriptor.
  case_bool_decide; [discriminate|]. injection H as <-. cbn [fk_descriptors].
  rewrite bool_decide_eq_true_2; [done|]. apply elem_of_cons. by left.
Qed.

Lemma ensure_metric_descriptor_exists_never_raises_witness :
  let w := fake_world (MkFake [] [] (Ok []) None) in
  let w' := (ensure_metric_descriptor_exists an_environ w).2 in
  let w'' := (ensure_metric_descriptor_exists an_environ w').2 in
  (ensure_metric_descriptor_exists an_environ w').1 = Ok tt /\
  new_events w' w'' = [EvGetMetricDescriptor (metric_name an_environ) (Ok tt)].
Proof.
  intros w w' w''.
  destruct (ensure_metric_descriptor_exists_never_raises an_environ w)
    as (_ & _ & _ & H).
  apply (H fake_descriptor_visible (project_name an_environ) the_descriptor).
  vm_compute. apply list_elem_of_In. right. left. reflexivity.
Defined.

(** ** Batches *)

Lemma range_from_zero (n step : nat) :
  range 0 n step = map (fun k => k * step) (seq 0 ((n + (step - 1)) / step)).
Proof. unfold range. by rewrite Nat.sub_0_r. Qed.

Lemma concat_slices {A} (l : list A) (s m : nat) :
  concat (map (fun k => slice l (k * s) (k * s + s)) (seq 0 m)) = take (m * s) l.
Proof.
  induction m as [|m IH].
  - by rewrite take_0.
  - rewrite seq_S, map_app, concat_app, IH. cbn [map concat Nat.add].
    rewrite app_nil_r. unfold slice.
    replace (m * s + s - m * s) with s by lia.
    rewrite take_take_drop. f_equal. lia.
Qed.

Lemma batch_count_covers (n : nat) : n <= (n + 199) / 200 * 200.
Proof.
  pose proof (Nat.div_mod_eq (n + 199) 200) as H.
  pose proof (Nat.mod_upper_bound (n + 199) 200). lia.
Qed.

Lemma batch_count_tight (n k : nat) : k < (n + 199) / 200 -> k * 200 < n.
Proof.
  intros Hk.
  pose proof (Nat.div_mod_eq (n + 199) 200) as H.
  pose proof (Nat.mod_upper_bound (n + 199) 200). nia.
Qed.

Lemma batches_unfold (l : list TimeSeries) :
  batches l =
  map (fun k => slice l (k * 200) (k * 200 + 200)) (seq 0 ((length l + 199) / 200)).
Proof.
  unfold batches, batch_size. rewrite range_from_zero, map_map. done.
Qed.

Lemma concat_batches (l : list TimeSeries) : concat (batches l) = l.
Proof.
  rewrite batches_unfold, concat_slices. apply take_ge, batch_count_covers.
Qed.

Lemma batches_sizes (l : list TimeSeries) :
  Forall (fun b => 0 < length b <= 200) (batches l).
Proof.
  rewrite batches_unfold. apply Forall_forall. intros b Hb.
  apply list_elem_of_In, in_map_iff in Hb as (k & <- & Hk).
  apply in_seq in Hk. unfold slice. rewrite length_take, length_drop.
  pose proof (batch_count_tight (length l) k). lia.
Qed.

Lemma batches_450 (l : list TimeSeries) :
  length l = 450 -> map length (batches l) = [200; 200; 50].
Proof.
  intros Hl. rewrite batches_unfold, Hl.
  change ((450 + 199) / 200) with 3. cbn [seq map]. unfold slice.
  rewrite !length_take, !length_drop, Hl. reflexivity.
Qed.

Lemma no_write_failed_spec (evs : list Event) :
  no_write_failed evs = true ->
  forall name batch e, EvCreateTimeSeries name batch (Raise e) ∉ evs.
Proof.
  unfold no_write_failed. rewrite forallb_forall. intros H name batch e Hin.
  apply list_elem_of_In in Hin. by apply H in Hin.
Qed.

Section Publisher.
Context {B : Type} `{!MetricServiceClient B}.
Variable environ : gmap string string.

(** Reading the labels does not touch the state and does not raise. *)
Lemma comprehension_project_ids (batch : list TimeSeries) (w : World B) :
  comprehension (fun ts => getitem (metric_labels ts) "project_id") batch w =
  (Ok (failed_projects batch), w).
Proof.
  induction batch as [|ts batch IH]; [done|].
  cbn [comprehension failed_projects map]. unfold bind at 1.
  unfold getitem at 1, ret at 1. unfold bind at 1. by rewrite IH.
Qed.

(** One turn of the loop. *)
Lemma write_batch_run (l : list TimeSeries) (i : nat) (w : World B) :
  let batch := slice l i (i + batch_size) in
  write_batch environ l i w =
  match api_create_time_series (project_name environ) batch (w_backend w) with
  | (Ok _, b1) =>
      (Ok tt,
       MkWorld (w_clock w) b1 (w_trace w ++ [write_event environ batch (Ok tt)])
         (w_log w ++ [log_batch_written l i]))
  | (Raise e, b1) =>
      (Raise e,
       MkWorld (w_clock w) b1 (w_trace w ++ [write_event environ batch (Raise e)])
         (w_log w ++ [log_write_failed e;
                      log_failed_projects (failed_projects batch)]))
  end.
Proof.
  intros batch. unfold write_batch, monitoring_client_create_time_series.
  fold (project_name environ). fold batch. unfold write_event, log_batch_written.
  fold batch.
  unfold try_except, bind at 1.
  destruct (api_create_time_series (project_name environ) batch (w_backend w))
    as [[[]|e] b1].
  - done.
  - unfold logger_error at 1, add_log, bind at 1.
    unfold bind at 1. rewrite comprehension_project_ids.
    unfold_monad. cbn [w_clock w_backend w_trace w_log].
    by rewrite <- app_assoc.
Qed.

Lemma for_each_cons {A} (x : A) (xs : list A) (body : A -> M B unit) (w : World B) :
  for_each (x :: xs) body w =
  match body x w with
  | (Ok _, w1) => for_each xs body w1
  | (Raise e, w1) => (Raise e, w1)
  end.
Proof. reflexivity. Qed.

(** The shape of every run of the loop over some indices: either every
    slice is written and accepted, with one progress record each, or the
    slices before some index are written and accepted, the one at that index
    is refused, the refusal and the project identifiers of the slice are
    logged, the refusal is raised again and nothing is written after it. *)
Lemma write_loop_log (l : list TimeSeries) (idx : list nat) (w : World B) :
  let r := for_each idx (write_batch environ l) w in
  let accepted i := write_event environ (slice l i (i + batch_size)) (Ok tt) in
  w_clock r.2 = w_clock w /\
  ((r.1 = Ok tt /\
    w_trace r.2 = w_trace w ++ map accepted idx /\
    w_log r.2 = w_log w ++ map (log_batch_written l) idx)
   \/
   (exists k i e,
      idx !! k = Some i /\
      w_trace r.2 =
        w_trace w ++ map accepted (take k idx) ++
        [write_event environ (slice l i (i + batch_size)) (Raise e)] /\
      r.1 = Raise e /\
      w_log r.2 =
        w_log w ++ map (log_batch_written l) (take k idx) ++
        [log_write_failed e;
         log_failed_projects (failed_projects (slice l i (i + batch_size)))])).
Proof.
  revert w. induction idx as [|i idx IH]; intros w r accepted.
  - subst r. cbn. rewrite !app_nil_r. split; [done|]. by left.
  - subst r. rewrite for_each_cons, write_batch_run.
    destruct (api_create_time_series _ _ _) as [[[]|e] b1].
    + match goal with |- context [for_each idx _ ?w1] =>
        destruct (IH w1)
          as [Hc [(Hr & Htr & Hlog)|(k & j & e & Hj & Htr & Hr & Hlog)]]
      end; cbn [w_clock w_trace w_log] in *; (split; [done|]).
      * left. split; [done|]. rewrite Htr, Hlog, <- !app_assoc. done.
      * right. exists (S k), j, e.
        split; [done|]. rewrite Htr, <- app_assoc. split; [done|].
        split; [done|]. by rewrite Hlog, <- !app_assoc.
    + split; [done|]. right. exists 0, i, e. by repeat split.
Qed.

(** The same for [write_metrics_to_monitoring] on a list that is not empty,
    in terms of its batches. *)
Lemma publish_log (l : list TimeSeries) (w : World B) :
  l <> [] ->
  let r := write_metrics_to_monitoring environ l w in
  let idx := range 0 (length l) batch_size in
  w_clock r.2 = w_clock w /\
  ((r.1 = Ok tt /\
    w_trace r.2 =
      w_trace w ++ map (fun b => write_event environ b (Ok tt)) (batches l) /\
    w_log r.2 = w_log w ++ map (log_batch_written l) idx)
   \/
   (exists k batch e,
      batches l !! k = Some batch /\
      w_trace r.2 =
        w_trace w ++
        map (fun b => write_event environ b (Ok tt)) (take k (batches l)) ++
        [write_event environ batch (Raise e)] /\
      r.1 = Raise e /\
      w_log r.2 =
        w_log w ++ map (log_batch_written l) (take k idx) ++
        [log_write_failed e; log_failed_projects (failed_projects batch)])).
Proof.
  intros Hl r idx. subst r idx. unfold write_metrics_to_monitoring.
  destruct l as [|ts l]; [done|]. set (l0 := ts :: l).
  destruct (write_loop_log l0 (range 0 (length l0) batch_size) w)
    as [Hc [(Hr & Htr & Hlog)|(k & i & e & Hi & Htr & Hr & Hlog)]];
    (split; [done|]).
  - left. split; [done|]. rewrite Htr.
    split; [unfold batches; by rewrite map_map|done].
  - right. exists k, (slice l0 i (i + batch_size)), e.
    split; [unfold batches; by rewrite list_lookup_fmap, Hi|].
    rewrite Htr.
    split; [unfold batches; by rewrite <- fmap_take, map_map|].
    by split.
Qed.

Lemma written_batches_accepted (bs : list (list TimeSeries)) :
  written_batches (map (fun b => write_event environ b (Ok tt)) bs) = bs.
Proof.
  unfold written_batches. induction bs as [|b bs IH]; [done|].
  cbn. by rewrite IH.
Qed.

Lemma written_batches_app (evs1 evs2 : list Event) :
  written_batches (evs1 ++ evs2) = written_batches evs1 ++ written_batches evs2.
Proof. apply omap_app. Qed.

Lemma no_write_failed_app (evs1 evs2 : list Event) :
  no_write_failed (evs1 ++ evs2) = no_write_failed evs1 && no_write_failed evs2.
Proof. apply forallb_app. Qed.

Lemma no_write_failed_accepted (bs : list (list TimeSeries)) :
  no_write_failed (map (fun b => write_event environ b (Ok tt)) bs) = true.
Proof. induction bs as [|b bs IH]; [done|]. exact IH. Qed.

Lemma accepted_batches_accepted (bs : list (list TimeSeries)) :
  accepted_batches (map (fun b => write_event environ b (Ok tt)) bs) = bs.
Proof.
  unfold accepted_batches. induction bs as [|b bs IH]; [done|].
  cbn. by rewrite IH.
Qed.

Lemma accepted_batches_app (evs1 evs2 : list Event) :
  accepted_batches (evs1 ++ evs2) = accepted_batches evs1 ++ accepted_batches evs2.
Proof. apply omap_app. Qed.

(** C1: on a list that is not empty, the batches of
    [write_metrics_to_monitoring] are contiguous slices of the list, in
    order, that together give the list back, each with between 1 and 200
    points.  The calls made are writes, one per batch, in the order of the
    batches, up to the first refused one, and none carries more than 200
    points; when no write is refused the call returns and every batch has been
    written.  A list of 450 points has the batches of 200, 200 and 50 points,
    in that order. *)
Theorem write_metrics_to_monitoring_batches (l : list TimeSeries) (w : World B) :
  l <> [] ->
  let r := write_metrics_to_monitoring environ l w in
  concat (batches l) = l /\
  Forall (fun b => 0 < length b <= 200) (batches l) /\
  (exists n,
     n <= length (batches l) /\
     length (new_events w r.2) = n /\
     written_batches (new_events w r.2) = take n (batches l)) /\
  Forall (fun b => length b <= 200) (written_batches (new_events w r.2)) /\
  (no_write_failed (new_events w r.2) = true ->
   r.1 = Ok tt /\ written_batches (new_events w r.2) = batches l) /\
  (length l = 450 -> map length (batches l) = [200; 200; 50]).
Proof.
  intros Hl r.
  split; [apply concat_batches|]. split; [apply batches_sizes|].
  assert (Hcalls : exists n,
            n <= length (batches l) /\
            length (new_events w r.2) = n /\
            written_batches (new_events w r.2) = take n (batches l) /\
            (no_write_failed (new_events w r.2) = true ->
             r.1 = Ok tt /\ n = length (batches l))).
  { destruct (publish_log l w Hl)
      as [_ [(Hr & Hev & _)|(k & batch & e & Hk & Hev & _)]]; fold r in Hev;
      apply new_events_app in Hev.
    - exists (length (batches l)). rewrite Hev, length_map, written_batches_accepted.
      rewrite take_ge by done. by repeat split.
    - pose proof (lookup_lt_Some _ _ _ Hk) as Hlt.
      exists (S k). rewrite Hev. split; [lia|].
      rewrite length_app, length_map, length_take. split; [cbn [length]; lia|].
      rewrite written_batches_app, written_batches_accepted.
      split; [by rewrite (take_S_r _ _ _ Hk)|].
      rewrite no_write_failed_app. cbn. rewrite andb_false_r. discriminate. }
  destruct Hcalls as (n & Hn & Hlen & Hwr & Hok).
  split; [by exists n|]. split.
  - rewrite Hwr. apply Forall_take. eapply Forall_impl; [apply batches_sizes|].
    cbn. intros b Hb. lia.
  - split; [|apply batches_450].
    intros Hno. destruct (Hok Hno) as [Hr ->]. split; [done|].
    by rewrite Hwr, take_ge.
Qed.

(** C8: on the empty list [write_metrics_to_monitoring] returns normally;
    it adds one record to the log and leaves the backend and the sequence of
    remote calls as they were. *)
Theorem write_metrics_to_monitoring_empty (w : World B) :
  write_metrics_to_monitoring environ [] w =
  (Ok tt,
   MkWorld (w_clock w) (w_backend w) (w_trace w)
     (w_log w ++ [MkLogRecord INFO [Lit "No time series data to write."]])) /\
  new_events w (write_metrics_to_monitoring environ [] w).2 = [].
Proof.
  split; [done|]. apply new_events_app. cbn. by rewrite app_nil_r.
Qed.

End Publisher.

Lemma write_metrics_to_monitoring_batches_witness :
  let l := replicate 450 a_series in
  let w := fake_world (MkFake [] [] (Ok []) None) in
  let r := write_metrics_to_monitoring an_environ l w in
  r.1 = Ok tt /\
  map length (written_batches (new_events w r.2)) = [200; 200; 50].
Proof.
  intros l w r.
  destruct (write_metrics_to_monitoring_batches an_environ l w)
    as (_ & _ & _ & _ & Hok & H450).
  - discriminate.
  - destruct Hok as [Hr Hwr]; [vm_compute; reflexivity|].
    split; [exact Hr|]. fold r in Hwr. rewrite Hwr. apply H450.
    vm_compute. reflexivity.
Defined.

(** ** The steps of the orchestrator *)

Lemma bind_ok {B A C} (c : M B A) (k : A -> M B C) (w w' : World B) (a : A) :
  c w = (Ok a, w') -> bind c k w = k a w'.
Proof. unfold bind. by intros ->. Qed.

Lemma bind_raise {B A C} (c : M B A) (k : A -> M B C) (w w' : World B) (e : exn) :
  c w = (Raise e, w') -> bind c k w = (Raise e, w').
Proof. unfold bind. by intros ->. Qed.

Lemma logger_info_run {B} (msg : message) (w : World B) :
  logger_info msg w = (Ok tt, with_log w [MkLogRecord INFO msg]).
Proof. reflexivity. Qed.

Lemma create_time_series_raises (id : string) (cost : float) (ts : Timestamp) :
  create_time_series id cost ts = Raise copy_from_error.
Proof. reflexivity. Qed.

(** The loop of [main] over the rows: on no rows it returns the list it was
    given; otherwise it logs the first row and raises there. *)
Lemma build_series_run {B} (rows : list Row) (ts : Timestamp)
    (acc : list TimeSeries) (w : World B) :
  build_series rows ts acc w =
  match rows with
  | [] => (Ok acc, w)
  | row :: _ => (Raise copy_from_error, with_log w [log_project_cost row])
  end.
Proof. by destruct rows. Qed.

Lemma get_previous_day_range_run {B} (w : World B) :
  get_previous_day_range w =
  match date_sub_timedelta (dt_date (w_clock w)) (mk_timedelta 1 0 0) with
  | Ok yesterday =>
      (Ok (datetime_combine yesterday time_min, midnight (w_clock w)), w)
  | Raise e => (Raise e, w)
  end.
Proof.
  unfold get_previous_day_range. unfold_monad. unfold datetime_date.
  by destruct (date_sub_timedelta _ _).
Qed.

Lemma last_of_log (elog pre : list LogRecord) (q z : LogRecord) :
  last (log_starting :: elog ++ q :: pre ++ [z]) = Some z.
Proof.
  rewrite (app_comm_cons pre [z] q), app_assoc, app_comm_cons. apply last_snoc.
Qed.

Section Refusal.
Context {B : Type} `{!MetricServiceClient B}.
Variable environ : gmap string string.

(** A run of the publisher whose call at index [k] is a refused write. *)
Lemma publish_refused (l : list TimeSeries) (w : World B) (k : nat)
    (name : string) (batch : list TimeSeries) (e : exn) :
  let r := write_metrics_to_monitoring environ l w in
  new_events w r.2 !! k = Some (EvCreateTimeSeries name batch (Raise e)) ->
  r.1 = Raise e /\
  batches l !! k = Some batch /\
  new_events w r.2 =
    map (fun b => write_event environ b (Ok tt)) (take k (batches l)) ++
    [write_event environ batch (Raise e)] /\
  new_log w r.2 =
    map (log_batch_written l) (take k (range 0 (length l) batch_size)) ++
    [log_write_failed e; log_failed_projects (failed_projects batch)].
Proof.
  intros r Hk.
  destruct (decide (l = [])) as [->|Hl].
  { subst r. cbn in Hk. rewrite (new_events_app w _ []) in Hk
      by (cbn; by rewrite app_nil_r). done. }
  destruct (publish_log environ l w Hl)
    as [_ [(Hr & Hev & _)|(k0 & batch0 & e0 & Hk0 & Hev & Hr & Hlog)]];
    fold r in Hev; apply new_events_app in Hev; rewrite Hev in Hk.
  - rewrite list_lookup_fmap in Hk.
    destruct (batches l !! k); discriminate.
  - pose proof (lookup_lt_Some _ _ _ Hk0) as Hlt.
    assert (Hlen : length (map (fun b => write_event environ b (Ok tt))
                             (take k0 (batches l))) = k0)
      by (rewrite length_map, length_take; lia).
    apply lookup_app_Some in Hk as [Hk|[Hge Hk]].
    + rewrite list_lookup_fmap in Hk.
      destruct (take k0 (batches l) !! k); discriminate.
    + rewrite Hlen in Hge, Hk.
      destruct (k - k0) as [|n] eqn:Hd; [|done].
      assert (k = k0) by lia. subst k0.
      injection Hk as _ -> ->.
      split; [done|]. split; [done|]. split; [done|].
      by apply new_log_app.
Qed.

End Refusal.

Section Orchestrator.
Context {B : Type} `{!MetricServiceClient B} `{!BigQueryClient B}.
Variable environ : gmap string string.
Variable sum_floats : list float -> float.

Lemma fetch_run (start_time end_time : datetime) (w : World B) :
  fetch_bigquery_costs environ start_time end_time w =
  let '(qr, b) :=
    api_query (the_query environ) (window_parameters start_time end_time)
              (w_backend w) in
  (qr,
   MkWorld (w_clock w) b
     (w_trace w ++
      [EvQuery (the_query environ) (window_parameters start_time end_time) qr])
     (w_log w ++
      [MkLogRecord INFO [Lit "Querying billing data from "; FIso start_time;
                         Lit " to "; FIso end_time]])).
Proof.
  unfold fetch_bigquery_costs, bq_client_query. unfold_monad.
  fold (window_parameters start_time end_time).
  cbn [w_clock w_backend w_trace w_log].
  destruct (api_query _ _ _) as [[rows|e] b]; done.
Qed.

(** What the provisioner adds to the state. *)
Lemma ensure_cases (w : World B) :
  exists w' ens elog,
    ensure_metric_descriptor_exists environ w = (Ok tt, w') /\
    w_clock w' = w_clock w /\
    w_trace w' = w_trace w ++ ens /\
    w_log w' = w_log w ++ elog /\
    provisioner_run environ ens elog.
Proof.
  rewrite ensure_run.
  destruct (api_get_metric_descriptor _ _) as [[[]|e] b1].
  - eexists _, _, _. repeat split. by left.
  - destruct (api_create_metric_descriptor _ _ _) as [[[]|e'] b2].
    + eexists _, _, _. repeat split. right. by exists e, (Ok tt).
    + eexists _, _, _. repeat split. right. by exists e, (Raise e').
Qed.

Lemma provisioner_run_events (ens : list Event) (elog : list LogRecord) :
  provisioner_run environ ens elog ->
  Forall is_descriptor_event ens /\
  0 < length ens <= 2 /\
  length elog = length ens /\
  no_write_failed ens = true /\
  written_batches ens = [] /\
  accepted_batches ens = [].
Proof.
  intros [[-> ->]|(e & c & -> & ->)]; repeat split; cbn; try lia;
    by repeat constructor.
Qed.

(** Without the project identifier nothing is called. *)
Lemma main_unconfigured (request : string) (w : World B) :
  truthy (MONITORING_PROJECT_ID environ) = false ->
  main environ sum_floats request w =
  (Ok (error_response (ValueError "GCP_PROJECT environment variable not set")),
   MkWorld (w_clock w) (w_backend w) (w_trace w)
     (w_log w ++
      [MkLogRecord INFO [Lit "Starting BigQuery daily cost monitoring function"];
       log_function_failed
         (ValueError "GCP_PROJECT environment variable not set")])).
Proof.
  intros Hcfg. unfold main, main_body, try_except. rewrite Hcfg.
  unfold_monad. cbn [w_clock w_backend w_trace w_log].
  by rewrite <- app_assoc.
Qed.

(** [main] with the project identifier set, stage by stage.  With rows in
    the answer of the query, the loop over the rows raises on the first one,
    so that the publisher is not reached. *)
Lemma main_steps (request : string) (w : World B) :
  truthy (MONITORING_PROJECT_ID environ) = true ->
  exists w1 ens elog,
    w_clock w1 = w_clock w /\
    w_trace w1 = w_trace w ++ ens /\
    w_log w1 = w_log w ++ log_starting :: elog /\
    provisioner_run environ ens elog /\
    main environ sum_floats request w =
    match date_sub_timedelta (dt_date (w_clock w)) (mk_timedelta 1 0 0) with
    | Raise ex => (Ok (error_response ex), with_log w1 [log_function_failed ex])
    | Ok yesterday =>
        let start_time := datetime_combine yesterday time_min in
        let end_time := midnight (w_clock w) in
        match fetch_bigquery_costs environ start_time end_time w1 with
        | (Raise ex, w2) =>
            (Ok (error_response ex), with_log w2 [log_function_failed ex])
        | (Ok [], w2) => (Ok no_data_response, with_log w2 [log_no_costs])
        | (Ok (row :: _), w2) =>
            (Ok (error_response copy_from_error),
             with_log w2 [log_project_cost row;
                          log_function_failed copy_from_error])
        end
    end.
Proof.
  intros Hcfg.
  destruct (ensure_cases (with_log w [log_starting]))
    as (w1 & ens & elog & Hens & Hclock & Htr & Hlog & Hrun).
  cbn [with_log w_clock w_trace w_log] in Hclock, Htr, Hlog.
  exists w1, ens, elog. split; [done|]. split; [done|].
  split; [by rewrite Hlog, <- app_assoc|]. split; [done|].
  unfold main, main_body, try_except.
  rewrite (bind_ok _ _ w (with_log w [log_starting]) tt) by done.
  rewrite Hcfg. rewrite (bind_ok _ _ _ (with_log w [log_starting]) tt) by done.
  rewrite (bind_ok _ _ _ w1 tt) by done.
  pose proof (get_previous_day_range_run w1) as Hwin. rewrite Hclock in Hwin.
  destruct (date_sub_timedelta (dt_date (w_clock w)) (mk_timedelta 1 0 0))
    as [yesterday|ex].
  2:{ by rewrite (bind_raise _ _ w1 w1 ex). }
  rewrite (bind_ok _ _ w1 w1 _ Hwin). cbv zeta. unfold bind at 1.
  destruct (fetch_bigquery_costs environ _ _ w1) as [[[|row rows']|ex] w2];
    [done| |done].
  rewrite (bind_raise _ _ w2 _ _ (build_series_run (row :: rows') _ [] w2)).
  unfold_monad. unfold with_log. cbn [w_clock w_backend w_trace w_log].
  by rewrite <- app_assoc.
Qed.

(** The calls, the records and the answer of every run of [main] with the
    project identifier set. *)
Lemma main_cases (request : string) (w : World B) :
  truthy (MONITORING_PROJECT_ID environ) = true ->
  let r := main environ sum_floats request w in
  exists ens elog,
    provisioner_run environ ens elog /\
    w_clock r.2 = w_clock w /\
    ((exists ex,
        date_sub_timedelta (dt_date (w_clock w)) (mk_timedelta 1 0 0) = Raise ex /\
        new_events w r.2 = ens /\
        new_log w r.2 = log_starting :: elog ++ [log_function_failed ex] /\
        r.1 = Ok (error_response ex))
     \/
     (exists yesterday res wlog,
        date_sub_timedelta (dt_date (w_clock w)) (mk_timedelta 1 0 0) = Ok yesterday /\
        new_events w r.2 =
          ens ++ [EvQuery (the_query environ)
                    (window_parameters (datetime_combine yesterday time_min)
                       (midnight (w_clock w))) res] /\
        new_log w r.2 =
          log_starting :: elog ++
          log_querying (datetime_combine yesterday time_min) (midnight (w_clock w))
          :: wlog /\
        match res with
        | Raise ex =>
            wlog = [log_function_failed ex] /\ r.1 = Ok (error_response ex)
        | Ok [] => wlog = [log_no_costs] /\ r.1 = Ok no_data_response
        | Ok (row :: _) =>
            wlog = [log_project_cost row; log_function_failed copy_from_error] /\
            r.1 = Ok (error_response copy_from_error)
        end)).
Proof.
  intros Hcfg r. subst r.
  destruct (main_steps request w Hcfg)
    as (w1 & ens & elog & Hclock & Htr & Hlog & Hrun & Hmain).
  rewrite Hmain. clear Hmain. exists ens, elog. split; [done|].
  destruct (date_sub_timedelta (dt_date (w_clock w)) (mk_timedelta 1 0 0))
    as [yesterday|ex]; cbv zeta.
  2:{ unfold with_log. cbn [fst snd w_clock w_trace w_log]. split; [done|].
      left. exists ex.
      split; [done|]. split; [by apply new_events_app|]. split; [|done].
      apply new_log_app. cbn [w_log]. rewrite Hlog, <- app_assoc. done. }
  rewrite fetch_run.
  destruct (api_query _ _ (w_backend w1)) as [[[|row rows']|ex] b2];
    unfold with_log; cbn [fst snd w_clock w_trace w_log]; (split; [done|]);
    right; eexists yesterday, _, _;
    (split; [done|]);
    (split; [apply new_events_app; by rewrite Htr, <- app_assoc|]);
    (split; [|done]); apply new_log_app; rewrite Hlog;
    repeat (progress (rewrite <- ?app_assoc; cbn [app])); reflexivity.
Qed.

(** A run of [main] whose calls include a query. *)
Lemma main_query_cases (request : string) (w : World B) sql cfg res :
  let r := main environ sum_floats request w in
  EvQuery sql cfg res ∈ new_events w r.2 ->
  exists ens elog yesterday wlog,
    truthy (MONITORING_PROJECT_ID environ) = true /\
    provisioner_run environ ens elog /\
    date_sub_timedelta (dt_date (w_clock w)) (mk_timedelta 1 0 0) = Ok yesterday /\
    sql = the_query environ /\
    cfg = window_parameters (datetime_combine yesterday time_min)
            (midnight (w_clock w)) /\
    new_events w r.2 = ens ++ [EvQuery sql cfg res] /\
    new_log w r.2 =
      log_starting :: elog ++
      log_querying (datetime_combine yesterday time_min) (midnight (w_clock w))
      :: wlog /\
    match res with
    | Raise ex =>
        wlog = [log_function_failed ex] /\ r.1 = Ok (error_response ex)
    | Ok [] => wlog = [log_no_costs] /\ r.1 = Ok no_data_response
    | Ok (row :: _) =>
        wlog = [log_project_cost row; log_function_failed copy_from_error] /\
        r.1 = Ok (error_response copy_from_error)
    end.
Proof.
  intros r Hin.
  destruct (truthy (MONITORING_PROJECT_ID environ)) eqn:Hcfg.
  2:{ subst r. rewrite main_unconfigured in Hin by done. cbn [snd] in Hin.
      rewrite (new_events_app w _ []) in Hin by (cbn; by rewrite app_nil_r).
      by apply elem_of_nil in Hin. }
  destruct (main_cases request w Hcfg) as (ens & elog & Hrun & _ & Hcases).
  fold r in Hcases.
  destruct (provisioner_run_events ens elog Hrun) as (Hens & _).
  destruct Hcases as [(ex & _ & Hev & _)
                     |(yesterday & res' & wlog & Hdate & Hev & Hlog & Hres)].
  { rewrite Hev in Hin. eapply Forall_forall in Hens; [|exact Hin]. done. }
  rewrite Hev in Hin. apply elem_of_app in Hin as [Hin|Hin].
  { eapply Forall_forall in Hens; [|exact Hin]. done. }
  apply list_elem_of_singleton in Hin. injection Hin as -> -> ->.
  exists ens, elog, yesterday, wlog. by repeat split.
Qed.

(** No run of [main] makes a write call. *)
Lemma main_no_write_event (request : string) (w : World B) name batch res :
  EvCreateTimeSeries name batch res
    ∉ new_events w (main environ sum_floats request w).2.
Proof.
  intros Hin.
  destruct (truthy (MONITORING_PROJECT_ID environ)) eqn:Hcfg.
  2:{ rewrite main_unconfigured in Hin by done. cbn [snd] in Hin.
      rewrite (new_events_app w _ []) in Hin by (cbn; by rewrite app_nil_r).
      by apply elem_of_nil in Hin. }
  destruct (main_cases request w Hcfg) as (ens & elog & Hrun & _ & Hcases).
  destruct (provisioner_run_events ens elog Hrun) as (Hens & _).
  destruct Hcases as [(ex & _ & Hev & _)
                     |(yesterday & res' & wlog & _ & Hev & _)];
    rewrite Hev in Hin.
  { eapply Forall_forall in Hens; [|exact Hin]. done. }
  apply elem_of_app in Hin as [Hin|Hin].
  { eapply Forall_forall in Hens; [|exact Hin]. done. }
  apply list_elem_of_singleton in Hin. discriminate.
Qed.

Lemma written_batches_none (evs : list Event) :
  (forall name batch res, EvCreateTimeSeries name batch res ∉ evs) ->
  written_batches evs = [].
Proof.
  unfold written_batches. induction evs as [|ev evs IH]; [done|]. intros H.
  destruct ev; cbn;
    try (apply IH; intros n b c Hin; apply (H n b c);
         by apply list_elem_of_further).
  exfalso. eapply H. apply list_elem_of_here.
Qed.

(** C4: when the project identifier is absent from the environment (or
    empty), [main] answers with status 500 and the message of the
    configuration error; it makes no remote call at all, and the backend is
    as it was. *)
Theorem main_without_project_identifier (request : string) (w : World B) :
  truthy (MONITORING_PROJECT_ID environ) = false ->
  let r := main environ sum_floats request w in
  r.1 = Ok ([Lit "Error: "; FStr "GCP_PROJECT environment variable not set"], 500%Z) /\
  new_events w r.2 = [] /\
  w_trace r.2 = w_trace w /\
  w_backend r.2 = w_backend w.
Proof.
  intros Hcfg r. subst r. rewrite main_unconfigured by done. cbn [fst snd].
  split; [done|]. split; [|done].
  apply new_events_app. cbn [w_trace]. by rewrite app_nil_r.
Qed.


(** C9: for any two windows, [fetch_bigquery_costs] makes one query call
    each, with the same statement text, which is the text around the table
    reference and nothing of the window; the bounds of the window are the
    values of the two bound parameters [start_time] and [end_time]. *)
Theorem fetch_bigquery_costs_binds_window
    (start_time end_time start_time' end_time' : datetime) (w w' : World B) :
  exists sql cfg cfg' res res',
    new_events w (fetch_bigquery_costs environ start_time end_time w).2 =
      [EvQuery sql cfg res] /\
    new_events w' (fetch_bigquery_costs environ start_time' end_time' w').2 =
      [EvQuery sql cfg' res'] /\
    sql = query_before_table +:+ BILLING_TABLE environ +:+ query_after_table /\
    query_parameters cfg =
      [MkScalarQueryParameter "start_time" "TIMESTAMP" start_time;
       MkScalarQueryParameter "end_time" "TIMESTAMP" end_time] /\
    query_parameters cfg' =
      [MkScalarQueryParameter "start_time" "TIMESTAMP" start_time';
       MkScalarQueryParameter "end_time" "TIMESTAMP" end_time'].
Proof.
  rewrite !fetch_run.
  destruct (api_query _ _ (w_backend w)) as [res b].
  destruct (api_query _ _ (w_backend w')) as [res' b'].
  exists (the_query environ), (window_parameters start_time end_time),
    (window_parameters start_time' end_time'), res, res'.
  cbn [snd]. split; [by apply new_events_app|]. split; [by apply new_events_app|].
  done.
Qed.

(** C10: without BILLING_TABLE in the environment the table reference is the
    placeholder, and the statement is built around it.  With the project
    identifier set, every run of [main] then starts with the descriptor
    lookup, so that no configuration error stops it before the remote calls;
    every query it makes carries the placeholder; on a date after 0001-01-01
    the query is made; and when the query fails, [main] answers with status
    500 and the text of that failure. *)
Theorem missing_billing_table_uses_placeholder :
  environ !! "BILLING_TABLE" = None ->
  BILLING_TABLE environ = "your-project.your_dataset.gcp_billing_export_v1_*" /\
  the_query environ =
    query_before_table +:+ "your-project.your_dataset.gcp_billing_export_v1_*"
    +:+ query_after_table /\
  (truthy (MONITORING_PROJECT_ID environ) = true ->
   forall (request : string) (w : World B),
     let r := main environ sum_floats request w in
     (exists g rest,
        new_events w r.2 = EvGetMetricDescriptor (metric_name environ) g :: rest) /\
     (forall sql cfg res,
        EvQuery sql cfg res ∈ new_events w r.2 ->
        sql = query_before_table
              +:+ "your-project.your_dataset.gcp_billing_export_v1_*"
              +:+ query_after_table) /\
     ((1 < dt_date (w_clock w) <= MAXORDINAL)%Z ->
      exists cfg res, EvQuery (the_query environ) cfg res ∈ new_events w r.2) /\
     (forall sql cfg e,
        EvQuery sql cfg (Raise e) ∈ new_events w r.2 ->
        r.1 = Ok ([Lit "Error: "; FStr (exn_str e)], 500%Z))).
Proof.
  intros Htable.
  assert (Hq : the_query environ =
            query_before_table
            +:+ "your-project.your_dataset.gcp_billing_export_v1_*"
            +:+ query_after_table)
    by (unfold the_query, BILLING_TABLE; by rewrite Htable).
  split; [unfold BILLING_TABLE; by rewrite Htable|]. split; [exact Hq|].
  intros Hcfg request w r.
  split; [|split; [|split]].
  - destruct (main_cases request w Hcfg) as (ens & elog & Hrun & _ & Hcases).
    fold r in Hcases.
    assert (Hhead : exists g rest,
              ens = EvGetMetricDescriptor (metric_name environ) g :: rest).
    { destruct Hrun as [[-> _]|(e & c & -> & _)]; by eexists _, _. }
    destruct Hhead as (g & rest & ->).
    destruct Hcases as [(ex & _ & Hev & _)|(yesterday & res & wlog & _ & Hev & _)];
      rewrite Hev; by eexists _, _.
  - intros sql cfg res Hin.
    destruct (main_query_cases request w sql cfg res Hin)
      as (_ & _ & _ & _ & _ & _ & _ & -> & _).
    exact Hq.
  - intros Hd.
    destruct (main_cases request w Hcfg) as (ens & elog & _ & _ & Hcases).
    fold r in Hcases.
    destruct Hcases as [(ex & Hdate & _)|(yesterday & res & wlog & _ & Hev & _)].
    { rewrite date_sub_one_day in Hdate by done. discriminate. }
    eexists _, res. rewrite Hev. apply elem_of_app. right.
    apply list_elem_of_here.
  - intros sql cfg e Hin.
    destruct (main_query_cases request w sql cfg (Raise e) Hin)
      as (_ & _ & _ & _ & _ & _ & _ & _ & _ & _ & _ & _ & Hr).
    exact Hr.
Qed.

(** C7, against the code: the loop of [main] over the rows does not build
    one series per row.  [create_time_series] raises an AttributeError on
    every call, at the call of [CopyFrom] on the end of the interval of the
    fresh point, before the point is put into the series.  So on rows that
    are not empty the loop logs the first row, raises that exception there,
    returns no list of series and makes no remote call; only on no rows does
    it return, with the list it was given. *)
Theorem build_series_raises_on_first_row
    (row : Row) (rows : list Row) (metric_timestamp : Timestamp)
    (time_series_list : list TimeSeries) (w : World B) :
  let r := build_series (row :: rows) metric_timestamp time_series_list w in
  (forall id cost timestamp,
     exists e,
       create_time_series id cost timestamp = Raise e /\
       exn_class e = "AttributeError") /\
  (exists e, r.1 = Raise e /\ exn_class e = "AttributeError") /\
  (forall series, r.1 <> Ok series) /\
  new_log w r.2 = [log_project_cost row] /\
  new_events w r.2 = [] /\
  build_series [] metric_timestamp time_series_list w = (Ok time_series_list, w).
Proof.
  intros r. subst r. rewrite build_series_run. cbn [fst snd].
  split; [intros id cost timestamp; by exists copy_from_error|].
  split; [by exists copy_from_error|]. split; [done|].
  split; [by apply new_log_app|].
  split; [apply new_events_app; cbn; by rewrite app_nil_r|done].
Qed.

(** C2: when the write of the batch at index [k] is refused with [e],
    [write_metrics_to_monitoring], on whatever list of series, raises [e]
    itself; the calls of the run are the accepted writes of the batches
    before [k] followed by the refused one, and nothing after it, so that
    what was accepted stays accepted; the last two records of the log are the
    error and the project identifiers of the series of the refused batch
    (the empty text for a series without one).  An exception that leaves the
    body of [main], as the one raised by the publisher does when it is
    reached, is logged and answered with status 500 and its text. *)
Theorem write_failure_aborts_publish
    (l : list TimeSeries) (w : World B) (k : nat)
    (name : string) (batch : list TimeSeries) (e : exn) :
  let r := write_metrics_to_monitoring environ l w in
  new_events w r.2 !! k = Some (EvCreateTimeSeries name batch (Raise e)) ->
  r.1 = Raise e /\
  batches l !! k = Some batch /\
  new_events w r.2 =
    map (fun b => EvCreateTimeSeries (project_name environ) b (Ok tt))
        (take k (batches l)) ++
    [EvCreateTimeSeries (project_name environ) batch (Raise e)] /\
  accepted_batches (new_events w r.2) = take k (batches l) /\
  (exists ids infos,
     Forall2 (fun ts id => id = default "" (metric_labels ts !! "project_id"))
             batch ids /\
     Forall is_info infos /\
     new_log w r.2 = infos ++ [log_write_failed e; log_failed_projects ids]) /\
  (forall (request : string) (wm wm' : World B) e',
     main_body environ sum_floats wm = (Raise e', wm') ->
     main environ sum_floats request wm =
       (Ok ([Lit "Error: "; FStr (exn_str e')], 500%Z),
        with_log wm' [log_function_failed e'])).
Proof.
  intros r Hk.
  destruct (publish_refused environ l w k name batch e Hk)
    as (Hr & Hb & Hev & Hlog).
  fold r in Hr, Hev, Hlog.
  split; [exact Hr|]. split; [exact Hb|]. split; [exact Hev|].
  split.
  { rewrite Hev, accepted_batches_app, accepted_batches_accepted.
    apply app_nil_r. }
  split.
  { exists (failed_projects batch),
      (map (log_batch_written l) (take k (range 0 (length l) batch_size))).
    split; [|split; [|exact Hlog]].
    - unfold failed_projects. apply Forall2_fmap_r, Forall_Forall2_diag.
      by apply Forall_forall.
    - apply Forall_forall. intros rec Hin.
      apply list_elem_of_In, in_map_iff in Hin as (i & <- & _). done. }
  intros request wm wm' e' Hbody. unfold main, try_except. by rewrite Hbody.
Qed.

(** *** Further properties of the runs of the orchestrator *)

(** X1: [main] never raises: whatever the environment, the clock and the
    two backends do, it answers with a message and the status 200 or 500.
    The status is 500 exactly when the answer is the text of an exception
    that the last record of the log reports as the failure of the function;
    with status 200 the last record is an INFO record.  The clock is not
    touched. *)
Theorem main_never_raises (request : string) (w : World B) :
  let r := main environ sum_floats request w in
  exists msg status,
    r.1 = Ok (msg, status) /\
    (status = 200 \/ status = 500)%Z /\
    w_clock r.2 = w_clock w /\
    (status = 500%Z <->
     exists e, msg = [Lit "Error: "; FStr (exn_str e)] /\
               last (new_log w r.2) = Some (log_function_failed e)) /\
    (status = 200%Z ->
     exists rec, last (new_log w r.2) = Some rec /\ lr_level rec = INFO).
Proof.
  intros r.
  assert (H : exists msg status rec,
            r.1 = Ok (msg, status) /\
            w_clock r.2 = w_clock w /\
            last (new_log w r.2) = Some rec /\
            ((status = 500%Z /\
              exists e, msg = [Lit "Error: "; FStr (exn_str e)] /\
                        rec = log_function_failed e)
             \/ (status = 200%Z /\ lr_level rec = INFO))).
  { assert (Herr : forall e,
              r.1 = Ok (error_response e) ->
              w_clock r.2 = w_clock w ->
              last (new_log w r.2) = Some (log_function_failed e) ->
              exists msg status rec,
                r.1 = Ok (msg, status) /\
                w_clock r.2 = w_clock w /\
                last (new_log w r.2) = Some rec /\
                ((status = 500%Z /\
                  exists e, msg = [Lit "Error: "; FStr (exn_str e)] /\
                            rec = log_function_failed e)
                 \/ (status = 200%Z /\ lr_level rec = INFO))).
    { intros e Hr Hc Hlast. eexists _, _, _. split; [exact Hr|].
      split; [exact Hc|]. split; [exact Hlast|]. left. split; [done|].
      by exists e. }
    destruct (truthy (MONITORING_PROJECT_ID environ)) eqn:Hcfg.
    2:{ apply (Herr (ValueError "GCP_PROJECT environment variable not set"));
          subst r; rewrite main_unconfigured by done; [done|done|].
        cbn [snd].
        by rewrite (new_log_app w _
                      [log_starting;
                       log_function_failed
                         (ValueError "GCP_PROJECT environment variable not set")]). }
    destruct (main_cases request w Hcfg) as (ens & elog & _ & Hc & Hcases).
    fold r in Hc, Hcases.
    destruct Hcases as [(ex & _ & _ & Hlog & Hr)
                       |(yesterday & res & wlog & _ & _ & Hlog & Hres)].
    { apply (Herr ex); [done|done|]. rewrite Hlog, app_comm_cons. apply last_snoc. }
    destruct res as [[|row rows]|ex]; destruct Hres as (-> & Hr).
    - exists [Lit "No data to report"], 200%Z, log_no_costs.
      split; [exact Hr|]. split; [exact Hc|]. split; [|by right].
      rewrite Hlog. apply (last_of_log elog []).
    - apply (Herr copy_from_error); [done|done|].
      rewrite Hlog. apply (last_of_log elog [log_project_cost row]).
    - apply (Herr ex); [done|done|]. rewrite Hlog. apply (last_of_log elog []). }
  destruct H as (msg & status & rec & Hr & Hc & Hlast & Hst).
  exists msg, status. split; [exact Hr|]. split; [tauto|]. split; [exact Hc|].
  destruct Hst as [(-> & e & -> & ->)|(-> & Hinfo)].
  - split; [|discriminate]. split; [|done]. intros _. by exists e.
  - split; [|intros _; by exists rec]. split; [discriminate|].
    intros (e & _ & Hl). rewrite Hlast in Hl. injection Hl as ->. discriminate.
Qed.

(** X2: the status 200 means that there was nothing to report.  When
    [main] answers with status 200, the message is "No data to report", the
    query of the run returned no row, the run made no write call, and the
    last record of the log says that no costs were found. *)
Theorem main_ok_means_no_data (request : string) (w : World B) (msg : message) :
  let r := main environ sum_floats request w in
  r.1 = Ok (msg, 200%Z) ->
  msg = [Lit "No data to report"] /\
  (exists sql cfg, EvQuery sql cfg (Ok []) ∈ new_events w r.2) /\
  (forall name batch res, EvCreateTimeSeries name batch res ∉ new_events w r.2) /\
  last (new_log w r.2) = Some log_no_costs.
Proof.
  intros r Hok.
  destruct (truthy (MONITORING_PROJECT_ID environ)) eqn:Hcfg.
  2:{ subst r. rewrite main_unconfigured in Hok by done. discriminate. }
  destruct (main_cases request w Hcfg) as (ens & elog & _ & _ & Hcases).
  fold r in Hcases.
  destruct Hcases as [(ex & _ & _ & _ & Hr)
                     |(yesterday & res & wlog & _ & Hev & Hlog & Hres)].
  { rewrite Hr in Hok. discriminate. }
  destruct res as [[|row rows]|ex]; destruct Hres as (-> & Hr);
    rewrite Hr in Hok; [|discriminate|discriminate].
  injection Hok as <-. split; [done|].
  split; [eexists _, _; rewrite Hev; apply elem_of_app; right;
          apply list_elem_of_here|].
  split; [intros name batch res; apply main_no_write_event|].
  rewrite Hlog. apply (last_of_log elog []).
Qed.

(** X3: a run of [main] whose query returned rows.  When the query of a
    run returned at least one row, [main] answers with status 500 and the
    text of an AttributeError; the run makes no write call; the last two
    records of the log are the cost of the first row and the failure of the
    function. *)
Theorem main_rows_answer_500
    (request : string) (w : World B) sql cfg (row : Row) (rows : list Row) :
  let r := main environ sum_floats request w in
  EvQuery sql cfg (Ok (row :: rows)) ∈ new_events w r.2 ->
  exists e,
    exn_class e = "AttributeError" /\
    r.1 = Ok ([Lit "Error: "; FStr (exn_str e)], 500%Z) /\
    (forall name batch res,
       EvCreateTimeSeries name batch res ∉ new_events w r.2) /\
    exists recs,
      new_log w r.2 = recs ++ [log_project_cost row; log_function_failed e].
Proof.
  intros r Hin.
  destruct (main_query_cases request w sql cfg (Ok (row :: rows)) Hin)
    as (ens & elog & yesterday & wlog & _ & _ & _ & _ & _ & _ & Hlog & -> & Hr).
  fold r in Hlog, Hr. exists copy_from_error.
  split; [done|]. split; [exact Hr|].
  split; [intros name batch res; apply main_no_write_event|].
  eexists (log_starting :: elog ++ [_]). rewrite Hlog.
  by rewrite <- app_comm_cons, <- app_assoc.
Qed.

(** X4: the order of the remote calls of [main].  The calls of a run are
    at most two descriptor calls, then at most one query, then write calls
    only.  Without any descriptor call there is no call at all, and the
    project identifier is not set; a write call is made only after a query
    that returned at least one row; with the project identifier set and a
    clock date after 0001-01-01, exactly one query is made. *)
Theorem main_call_order (request : string) (w : World B) :
  let r := main environ sum_floats request w in
  exists ens qs wevs,
    new_events w r.2 = ens ++ qs ++ wevs /\
    Forall is_descriptor_event ens /\ length ens <= 2 /\
    Forall is_query_event qs /\ length qs <= 1 /\
    Forall is_write_event wevs /\
    (ens = [] ->
     truthy (MONITORING_PROJECT_ID environ) = false /\ qs = [] /\ wevs = []) /\
    (wevs <> [] ->
     exists sql cfg row rows, qs = [EvQuery sql cfg (Ok (row :: rows))]) /\
    (truthy (MONITORING_PROJECT_ID environ) = true ->
     (1 < dt_date (w_clock w) <= MAXORDINAL)%Z -> length qs = 1).
Proof.
  intros r.
  destruct (truthy (MONITORING_PROJECT_ID environ)) eqn:Hcfg.
  2:{ exists [], [], []. subst r. rewrite main_unconfigured by done. cbn [snd].
      rewrite (new_events_app w _ []) by (cbn; by rewrite app_nil_r).
      split; [done|]. split; [constructor|]. split; [cbn; lia|].
      split; [constructor|]. split; [cbn; lia|]. split; [constructor|].
      by repeat split. }
  destruct (main_cases request w Hcfg) as (ens & elog & Hrun & _ & Hcases).
  fold r in Hcases.
  destruct (provisioner_run_events ens elog Hrun) as (Hens & Hlen & _).
  destruct Hcases as [(ex & Hdate & Hev & _)
                     |(yesterday & res & wlog & Hdate & Hev & _)].
  { exists ens, [], []. rewrite app_nil_r. split; [done|].
    split; [done|]. split; [lia|]. split; [constructor|]. split; [cbn; lia|].
    split; [constructor|]. split; [intros ->; cbn in Hlen; lia|].
    split; [done|]. intros _ Hd. rewrite date_sub_one_day in Hdate by done.
    discriminate. }
  eexists ens, [_], []. split; [exact Hev|].
  split; [done|]. split; [lia|]. split; [by repeat constructor|].
  split; [done|]. split; [constructor|].
  split; [intros ->; cbn in Hlen; lia|]. by split.
Qed.

(** X5: every remote call of a run of [main] is addressed as configured.
    With the project identifier [id], the lookup names the descriptor of the
    custom metric type in the project [id], the creation names the project
    [id] and sends a descriptor of the custom metric type, and the statement
    of the query is the one built around the configured table; the run makes
    no other call. *)
Theorem main_calls_address_project
    (request : string) (w : World B) (id : string) (ev : Event) :
  let r := main environ sum_floats request w in
  environ !! "GCP_PROJECT" = Some id ->
  ev ∈ new_events w r.2 ->
  match ev with
  | EvGetMetricDescriptor name _ =>
      name = ("projects/" +:+ id) +:+ "/metricDescriptors/" +:+ CUSTOM_METRIC_TYPE
  | EvCreateMetricDescriptor name d _ =>
      name = "projects/" +:+ id /\ md_type d = CUSTOM_METRIC_TYPE
  | EvCreateTimeSeries _ _ _ => False
  | EvQuery sql _ _ =>
      sql = query_before_table +:+ BILLING_TABLE environ +:+ query_after_table
  end.
Proof.
  intros r Hid Hin.
  assert (Hpn : project_name environ = "projects/" +:+ id)
    by (unfold project_name, MONITORING_PROJECT_ID; by rewrite Hid).
  assert (Hmn : metric_name environ =
                ("projects/" +:+ id) +:+ "/metricDescriptors/" +:+ CUSTOM_METRIC_TYPE)
    by (unfold metric_name; by rewrite Hpn).
  destruct (truthy (MONITORING_PROJECT_ID environ)) eqn:Hcfg.
  2:{ subst r. rewrite main_unconfigured in Hin by done. cbn [snd] in Hin.
      rewrite (new_events_app w _ []) in Hin by (cbn; by rewrite app_nil_r).
      by apply elem_of_nil in Hin. }
  destruct (main_cases request w Hcfg) as (ens & elog & Hrun & _ & Hcases).
  fold r in Hcases.
  assert (Hens : ev ∈ ens ->
            match ev with
            | EvGetMetricDescriptor name _ =>
                name = ("projects/" +:+ id) +:+ "/metricDescriptors/"
                       +:+ CUSTOM_METRIC_TYPE
            | EvCreateMetricDescriptor name d _ =>
                name = "projects/" +:+ id /\ md_type d = CUSTOM_METRIC_TYPE
            | EvCreateTimeSeries _ _ _ => False
            | EvQuery sql _ _ =>
                sql = query_before_table +:+ BILLING_TABLE environ
                      +:+ query_after_table
            end).
  { destruct Hrun as [[-> _]|(e & c & -> & _)]; intros He.
    - apply list_elem_of_singleton in He as ->. exact Hmn.
    - apply elem_of_cons in He as [->|He]; [exact Hmn|].
      apply list_elem_of_singleton in He as ->. by rewrite Hpn. }
  destruct Hcases as [(ex & _ & Hev & _)
                     |(yesterday & res & wlog & _ & Hev & _)];
    rewrite Hev in Hin; [by apply Hens|].
  apply elem_of_app in Hin as [Hin|Hin]; [by apply Hens|].
  by apply list_elem_of_singleton in Hin as ->.
Qed.

(** X6: the window of the query of [main].  A query made by a run of
    [main] carries the statement built around the configured table and, as
    its two parameters, midnight UTC of the day before the clock's date and
    midnight UTC of the clock's date; the date is then later than
    0001-01-01.  Two runs on the same date, whatever the time of day and the
    state of the backends, make the same query. *)
Theorem main_query_window (request : string) (w : World B) sql cfg res :
  let r := main environ sum_floats request w in
  let d := dt_date (w_clock w) in
  EvQuery sql cfg res ∈ new_events w r.2 ->
  (1 < d)%Z /\
  sql = the_query environ /\
  query_parameters cfg =
    [MkScalarQueryParameter "start_time" "TIMESTAMP" (Datetime (d - 1) time_min);
     MkScalarQueryParameter "end_time" "TIMESTAMP" (Datetime d time_min)] /\
  (forall (request2 : string) (w2 : World B) sql2 cfg2 res2,
     dt_date (w_clock w2) = d ->
     EvQuery sql2 cfg2 res2 ∈ new_events w2 (main environ sum_floats request2 w2).2 ->
     sql2 = sql /\ cfg2 = cfg).
Proof.
  intros r d Hin.
  assert (Hq : forall (request' : string) (w' : World B) sql' cfg' res',
            EvQuery sql' cfg' res'
              ∈ new_events w' (main environ sum_floats request' w').2 ->
            (1 < dt_date (w_clock w'))%Z /\
            sql' = the_query environ /\
            cfg' = window_parameters
                     (Datetime (dt_date (w_clock w') - 1) time_min)
                     (Datetime (dt_date (w_clock w')) time_min)).
  { intros request' w' sql' cfg' res' Hin'.
    destruct (main_query_cases request' w' sql' cfg' res' Hin')
      as (_ & _ & yesterday & _ & _ & _ & Hdate & -> & -> & _).
    unfold date_sub_timedelta in Hdate. rewrite timedelta_one_day in Hdate.
    cbn [td_days] in Hdate. case_bool_decide as Hd; [|discriminate].
    injection Hdate as <-. split; [lia|]. split; [done|].
    reflexivity. }
  destruct (Hq request w sql cfg res Hin) as (Hd & -> & ->).
  split; [exact Hd|]. split; [done|]. split; [done|].
  intros request2 w2 sql2 cfg2 res2 Hd2 Hin2.
  destruct (Hq request2 w2 sql2 cfg2 res2 Hin2) as (_ & -> & ->).
  by rewrite Hd2.
Qed.

(** X7: no run of [main] reaches the publisher.  Whatever the
    environment, the clock and the backends do, a run of [main] makes no
    write call, makes at most three remote calls in all, and does not answer
    with the message of a successful publication. *)
Theorem main_makes_no_write (request : string) (w : World B) :
  let r := main environ sum_floats request w in
  (forall name batch res, EvCreateTimeSeries name batch res ∉ new_events w r.2) /\
  written_batches (new_events w r.2) = [] /\
  length (new_events w r.2) <= 3 /\
  (forall n total, r.1 <> Ok (success_response n total)).
Proof.
  intros r.
  split; [intros name batch res; apply main_no_write_event|].
  split; [apply written_batches_none; intros name batch res;
          apply main_no_write_event|].
  destruct (truthy (MONITORING_PROJECT_ID environ)) eqn:Hcfg.
  2:{ subst r. rewrite main_unconfigured by done. cbn [fst snd].
      rewrite (new_events_app w _ []) by (cbn; by rewrite app_nil_r).
      split; [cbn; lia|done]. }
  destruct (main_cases request w Hcfg) as (ens & elog & Hrun & _ & Hcases).
  fold r in Hcases.
  destruct (provisioner_run_events ens elog Hrun) as (_ & Hlen & _).
  destruct Hcases as [(ex & _ & Hev & _ & Hr)
                     |(yesterday & res & wlog & _ & Hev & _ & Hres)];
    rewrite Hev.
  { split; [lia|]. by rewrite Hr. }
  rewrite length_app. split; [cbn [length]; lia|].
  destruct res as [[|row rows]|ex]; destruct Hres as (_ & Hr); by rewrite Hr.
Qed.

(** X8: a configured table reference is used as it is.  When BILLING_TABLE
    is set, to whatever text, the empty one included, that text is the table
    reference: the placeholder is not used, no configuration error is
    raised, and every query that a run of [main] makes carries the statement
    built around that text. *)
Theorem billing_table_used_verbatim (table : string) :
  environ !! "BILLING_TABLE" = Some table ->
  BILLING_TABLE environ = table /\
  the_query environ = query_before_table +:+ table +:+ query_after_table /\
  (forall (request : string) (w : World B) sql cfg res,
     EvQuery sql cfg res ∈ new_events w (main environ sum_floats request w).2 ->
     sql = query_before_table +:+ table +:+ query_after_table) /\
  (forall (request : string) (w : World B),
     truthy (MONITORING_PROJECT_ID environ) = true ->
     (1 < dt_date (w_clock w) <= MAXORDINAL)%Z ->
     exists cfg res,
       EvQuery (query_before_table +:+ table +:+ query_after_table) cfg res
         ∈ new_events w (main environ sum_floats request w).2).
Proof.
  intros Htable.
  assert (Ht : BILLING_TABLE environ = table)
    by (unfold BILLING_TABLE; by rewrite Htable).
  assert (Hq : the_query environ =
               query_before_table +:+ table +:+ query_after_table)
    by (unfold the_query; by rewrite Ht).
  split; [exact Ht|]. split; [exact Hq|]. split.
  - intros request w sql cfg res Hin.
    destruct (main_query_cases request w sql cfg res Hin)
      as (_ & _ & _ & _ & _ & _ & _ & -> & _).
    exact Hq.
  - intros request w Hcfg Hd.
    destruct (main_cases request w Hcfg) as (ens & elog & _ & _ & Hcases).
    destruct Hcases as [(ex & Hdate & _)
                       |(yesterday & res & wlog & _ & Hev & _)].
    { rewrite date_sub_one_day in Hdate by done. discriminate. }
    rewrite <- Hq. eexists _, res. rewrite Hev.
    apply elem_of_app. right. apply list_elem_of_here.
Qed.

End Orchestrator.

(** ** Runs on the in-memory backend *)

(** ** Runs on the in-memory backend *)

Lemma main_without_project_identifier_witness :
  let w := fake_world (MkFake [] [] (Ok two_rows) None) in
  let r := main ∅ float_sum "" w in
  r.1 = Ok ([Lit "Error: "; FStr "GCP_PROJECT environment variable not set"], 500%Z) /\
  new_events w r.2 = [] /\
  w_backend r.2 = w_backend w.
Proof.
  intros w r.
  destruct (main_without_project_identifier ∅ float_sum "" w)
    as (Hr & Hev & _ & Hb).
  - reflexivity.
  - split; [exact Hr|]. split; [exact Hev|exact Hb].
Defined.


Lemma write_failure_aborts_publish_witness :
  let l := replicate 250 a_series in
  let w := fake_world (MkFake [] [] (Ok []) (Some 1)) in
  let r := write_metrics_to_monitoring an_environ l w in
  r.1 = Raise backend_error /\
  batches l !! 1 = Some (replicate 50 a_series) /\
  new_events w r.2 =
    [EvCreateTimeSeries (project_name an_environ) (replicate 200 a_series) (Ok tt);
     EvCreateTimeSeries (project_name an_environ) (replicate 50 a_series)
       (Raise backend_error)] /\
  fk_series (w_backend r.2) = replicate 200 a_series.
Proof.
  intros l w r.
  destruct (write_failure_aborts_publish an_environ float_sum l w 1
              (project_name an_environ) (replicate 50 a_series) backend_error)
    as (Hr & Hb & Hev & _).
  - vm_compute. reflexivity.
  - split; [exact Hr|]. split; [exact Hb|]. split.
    + fold r in Hev. rewrite Hev. vm_compute. reflexivity.
    + vm_compute. reflexivity.
Defined.

Lemma missing_billing_table_uses_placeholder_witness :
  let w := fake_world (MkFake [] [] (Raise (Exn "NotFound" "404 Not found: Table")) None) in
  let r := main an_environ float_sum "" w in
  BILLING_TABLE an_environ = "your-project.your_dataset.gcp_billing_export_v1_*" /\
  r.1 = Ok ([Lit "Error: "; FStr "404 Not found: Table"], 500%Z) /\
  exists g rest,
    new_events w r.2 = EvGetMetricDescriptor (metric_name an_environ) g :: rest.
Proof.
  intros w r.
  destruct (@missing_billing_table_uses_placeholder Fake _ _ an_environ float_sum)
    as (Ht & _ & Hmain).
  - reflexivity.
  - split; [exact Ht|].
    destruct (Hmain eq_refl "" w) as (Hfirst & _ & _ & Hfail).
    split; [|exact Hfirst].
    apply (Hfail (the_query an_environ)
             (window_parameters (Datetime 739051 time_min) (Datetime 739052 time_min))
             (Exn "NotFound" "404 Not found: Table")).
    vm_compute. apply list_elem_of_In. right. right. left. reflexivity.
Defined.

(** * Further properties of the provisioner, the aggregator and the publisher *)

(** ** The calls of the provisioner *)

Section ProvisionerCalls.
Context {B : Type} `{!MetricServiceClient B}.
Variable environ : gmap string string.

(** X9: the calls of [ensure_metric_descriptor_exists].  A call makes the
    lookup first and at most one more call, a creation; it makes no query
    and no write.  A creation is made only after a lookup that raised, names
    the project and sends the descriptor of the custom metric type; after a
    lookup that succeeded nothing else is done and one record is logged.  One
    record is logged per call, none of them an error, and the clock is not
    touched. *)
Theorem ensure_metric_descriptor_exists_calls (w : World B) :
  let r := ensure_metric_descriptor_exists environ w in
  let evs := new_events w r.2 in
  (exists g, head evs = Some (EvGetMetricDescriptor (metric_name environ) g)) /\
  length evs <= 2 /\
  Forall is_descriptor_event evs /\
  (forall name d c,
     EvCreateMetricDescriptor name d c ∈ evs ->
     name = project_name environ /\ d = the_descriptor /\
     exists e,
       evs = [EvGetMetricDescriptor (metric_name environ) (Raise e);
              EvCreateMetricDescriptor name d c]) /\
  (forall name,
     EvGetMetricDescriptor name (Ok tt) ∈ evs ->
     evs = [EvGetMetricDescriptor (metric_name environ) (Ok tt)] /\
     new_log w r.2 = [log_exists]) /\
  length (new_log w r.2) = length evs /\
  Forall (fun rec => lr_level rec <> ERROR) (new_log w r.2) /\
  w_clock r.2 = w_clock w.
Proof.
  intros r evs. subst evs r.
  destruct (ensure_cases environ w)
    as (w' & ens & elog & -> & Hclock & Htr & Hlog & Hrun).
  cbn [snd]. rewrite (new_events_app w w' ens Htr), (new_log_app w w' elog Hlog).
  destruct Hrun as [[-> ->]|(e & c & -> & ->)].
  - split; [by eexists|]. split; [cbn; lia|]. split; [by repeat constructor|].
    split.
    { intros name d c Hin. apply list_elem_of_singleton in Hin. discriminate. }
    split; [done|]. split; [done|]. split; [|done].
    by repeat constructor.
  - split; [by eexists|]. split; [cbn; lia|]. split; [by repeat constructor|].
    split.
    { intros name d c' Hin.
      apply elem_of_cons in Hin as [Hin|Hin]; [discriminate|].
      apply list_elem_of_singleton in Hin. injection Hin as -> -> ->.
      split; [done|]. split; [done|]. by exists e. }
    split.
    { intros name Hin. apply elem_of_cons in Hin as [Hin|Hin]; [discriminate|].
      apply list_elem_of_singleton in Hin. discriminate. }
    split; [done|]. split; [|done].
    destruct c; by repeat constructor.
Qed.

(** X10: the two functions that call the metrics backend do not check the
    configuration themselves.  When GCP_PROJECT is not in the environment,
    [ensure_metric_descriptor_exists] looks the descriptor up, and creates
    it, under the project [None], and [write_metrics_to_monitoring] writes
    to the project [None]. *)
Theorem calls_without_project_identifier (l : list TimeSeries) (w : World B) :
  environ !! "GCP_PROJECT" = None ->
  (exists g rest,
     new_events w (ensure_metric_descriptor_exists environ w).2 =
       EvGetMetricDescriptor
         "projects/None/metricDescriptors/custom.googleapis.com/billing/bigquery/daily_cost"
         g :: rest /\
     forall name d c,
       EvCreateMetricDescriptor name d c ∈ rest -> name = "projects/None") /\
  (forall name batch c,
     EvCreateTimeSeries name batch c
       ∈ new_events w (write_metrics_to_monitoring environ l w).2 ->
     name = "projects/None").
Proof.
  intros Hnone.
  assert (Hpn : project_name environ = "projects/None")
    by (unfold project_name, MONITORING_PROJECT_ID; by rewrite Hnone).
  assert (Hmn : metric_name environ =
    "projects/None/metricDescriptors/custom.googleapis.com/billing/bigquery/daily_cost")
    by (unfold metric_name; by rewrite Hpn).
  split.
  - destruct (ensure_cases environ w)
      as (w' & ens & elog & -> & _ & Htr & _ & Hrun).
    cbn [snd]. rewrite (new_events_app w w' ens Htr), <- Hmn.
    destruct Hrun as [[-> _]|(e & c & -> & _)].
    + eexists _, []. split; [done|]. intros name d c Hin.
      by apply elem_of_nil in Hin.
    + eexists _, [_]. split; [done|]. intros name d c' Hin.
      apply list_elem_of_singleton in Hin. injection Hin as -> _ _.
      exact Hpn.
  - intros name batch c Hin.
    destruct (decide (l = [])) as [->|Hl].
    { rewrite (new_events_app w _ []) in Hin by (cbn; by rewrite app_nil_r).
      by apply elem_of_nil in Hin. }
    destruct (publish_log environ l w Hl)
      as [_ [(_ & Hev & _)|(k & batch' & e & _ & Hev & _)]];
      apply new_events_app in Hev; rewrite Hev in Hin.
    + apply list_elem_of_In, in_map_iff in Hin as (b & Hb & _).
      injection Hb as <- _. exact Hpn.
    + apply elem_of_app in Hin as [Hin|Hin].
      * apply list_elem_of_In, in_map_iff in Hin as (b & Hb & _).
        injection Hb as <- _. exact Hpn.
      * apply list_elem_of_singleton in Hin. injection Hin as -> _ _.
        exact Hpn.
Qed.

End ProvisionerCalls.

Lemma calls_without_project_identifier_witness :
  let w := fake_world (MkFake [] [] (Ok []) None) in
  new_events w (write_metrics_to_monitoring ∅ [a_series] w).2 =
    [EvCreateTimeSeries "projects/None" [a_series] (Ok tt)] /\
  forall name batch c,
    EvCreateTimeSeries name batch c
      ∈ new_events w (write_metrics_to_monitoring ∅ [a_series] w).2 ->
    name = "projects/None".
Proof.
  intros w. split; [vm_compute; reflexivity|].
  destruct (calls_without_project_identifier ∅ [a_series] w) as [_ H].
  - reflexivity.
  - exact H.
Defined.

(** ** The aggregator *)

Section Aggregator.
Context {B : Type} `{!BigQueryClient B}.
Variable environ : gmap string string.

(** X11: [fetch_bigquery_costs] hands on what the warehouse answers: the
    rows, in the order of the answer, or the exception itself, which it does
    not catch.  Whatever the answer, it makes the one query call, has logged
    the window before it, leaves the backend as the call left it and does not
    touch the clock. *)
Theorem fetch_bigquery_costs_returns_answer
    (start_time end_time : datetime) (w : World B) :
  let r := fetch_bigquery_costs environ start_time end_time w in
  let answer :=
    api_query (the_query environ) (window_parameters start_time end_time)
              (w_backend w) in
  r.1 = answer.1 /\
  w_backend r.2 = answer.2 /\
  new_events w r.2 =
    [EvQuery (the_query environ) (window_parameters start_time end_time) answer.1] /\
  new_log w r.2 = [log_querying start_time end_time] /\
  w_clock r.2 = w_clock w.
Proof.
  intros r answer. subst r answer. rewrite fetch_run.
  destruct (api_query _ _ _) as [res b]. cbn [fst snd w_backend w_clock].
  split; [done|]. split; [done|].
  split; [by apply new_events_app|]. split; [by apply new_log_app|done].
Qed.

End Aggregator.

(** ** Windows of successive days *)

Section Windows.
Context {B : Type}.

(** X12: the windows of successive days tile the time line.  On a date
    after 0001-01-01 the window is the same at every time of the day; its
    two ends are 86400 seconds apart, with no fraction of a second; and the
    window of the next day starts at the instant where this one ends. *)
Theorem get_previous_day_range_tiles (w1 w2 : World B) :
  (1 < dt_date (w_clock w1))%Z ->
  (dt_date (w_clock w2) = dt_date (w_clock w1) + 1)%Z ->
  (dt_date (w_clock w2) <= MAXORDINAL)%Z ->
  exists s1 e1 s2 e2,
    (get_previous_day_range w1).1 = Ok (s1, e1) /\
    (get_previous_day_range w2).1 = Ok (s2, e2) /\
    s2 = e1 /\
    (ts_seconds (FromDatetime e1) - ts_seconds (FromDatetime s1) = 86400)%Z /\
    ts_nanos (FromDatetime s1) = 0%Z /\
    ts_nanos (FromDatetime e1) = 0%Z /\
    (forall w3 : World B,
       dt_date (w_clock w3) = dt_date (w_clock w1) ->
       (get_previous_day_range w3).1 = Ok (s1, e1)).
Proof.
  intros H1 H2 Hmax.
  assert (Hrun : forall w : World B,
            (1 < dt_date (w_clock w) <= MAXORDINAL)%Z ->
            (get_previous_day_range w).1 =
            Ok (Datetime (dt_date (w_clock w) - 1) time_min,
                Datetime (dt_date (w_clock w)) time_min)).
  { intros w Hd. rewrite get_previous_day_range_run.
    by rewrite date_sub_one_day by done. }
  exists (Datetime (dt_date (w_clock w1) - 1) time_min),
         (Datetime (dt_date (w_clock w1)) time_min),
         (Datetime (dt_date (w_clock w2) - 1) time_min),
         (Datetime (dt_date (w_clock w2)) time_min).
  split; [apply Hrun; lia|]. split; [apply Hrun; lia|].
  split; [f_equal; lia|].
  split; [unfold FromDatetime, seconds_of_day, time_min;
          cbn [ts_seconds dt_date dt_time hour minute second]; lia|].
  split; [done|]. split; [done|].
  intros w3 H3. rewrite Hrun by lia. by rewrite H3.
Qed.

End Windows.

Lemma get_previous_day_range_tiles_witness :
  let w1 := MkWorld (Datetime 739052 (Time 23 59 59 999999)) tt [] [] in
  let w2 := MkWorld (Datetime 739053 (Time 0 0 0 0)) tt [] [] in
  exists s1 e1 s2 e2,
    (get_previous_day_range w1).1 = Ok (s1, e1) /\
    (get_previous_day_range w2).1 = Ok (s2, e2) /\
    s2 = e1.
Proof.
  intros w1 w2.
  destruct (get_previous_day_range_tiles w1 w2)
    as (s1 & e1 & s2 & e2 & Hw1 & Hw2 & Heq & _).
  - simpl. lia.
  - reflexivity.
  - unfold MAXORDINAL. simpl. lia.
  - by exists s1, e1, s2, e2.
Defined.

(** ** Counting the batches *)

Lemma batches_length (l : list TimeSeries) :
  length (batches l) = (length l + 199) / 200.
Proof. by rewrite batches_unfold, length_map, length_seq. Qed.

Lemma batches_lookup (l : list TimeSeries) (k : nat) :
  k < (length l + 199) / 200 ->
  batches l !! k = Some (take 200 (drop (200 * k) l)).
Proof.
  intros Hk. rewrite batches_unfold, list_lookup_fmap, lookup_seq_lt by done.
  cbn -[Nat.mul]. unfold slice.
  replace (k * 200 + 200 - k * 200) with 200 by lia.
  by replace (k * 200) with (200 * k) by lia.
Qed.

Lemma concat_take_batches (l : list TimeSeries) (k : nat) :
  concat (take k (batches l)) = take (200 * k) l.
Proof.
  destruct (decide (k <= (length l + 199) / 200)) as [Hk|Hk].
  - rewrite batches_unfold, <- fmap_take, take_seq.
    replace (k `min` ((length l + 199) / 200)) with k by lia.
    rewrite concat_slices. f_equal. lia.
  - rewrite take_ge by (rewrite batches_length; lia).
    rewrite concat_batches, take_ge; [done|].
    pose proof (batch_count_covers (length l)). nia.
Qed.

Section PublisherCounts.
Context {B : Type} `{!MetricServiceClient B}.
Variable environ : gmap string string.

(** X15: how many batches, and how large.  A list of [n] series is cut
    into [ceil(n / 200)] batches; the batch at index [k] is the 200 series
    from position [200 k] on, or those that are left; every batch but the
    last has exactly 200 series.  A run of [write_metrics_to_monitoring]
    makes at most that many calls, and exactly that many when it returns. *)
Theorem batches_count_and_sizes (l : list TimeSeries) (w : World B) :
  let r := write_metrics_to_monitoring environ l w in
  let n := length l in
  length (batches l) = (n + 199) / 200 /\
  (forall k batch,
     batches l !! k = Some batch ->
     batch = take 200 (drop (200 * k) l) /\
     length batch = 200 `min` (n - 200 * k) /\
     (S k < length (batches l) -> length batch = 200)) /\
  length (new_events w r.2) <= (n + 199) / 200 /\
  (r.1 = Ok tt -> length (new_events w r.2) = (n + 199) / 200).
Proof.
  intros r n. subst n. split; [apply batches_length|]. split.
  - intros k batch Hk.
    pose proof (lookup_lt_Some _ _ _ Hk) as Hlt. rewrite batches_length in Hlt.
    rewrite batches_lookup in Hk by done. injection Hk as <-.
    split; [done|]. rewrite length_take, length_drop.
    split; [done|]. rewrite batches_length. intros HS.
    pose proof (batch_count_tight (length l) (S k) HS). lia.
  - destruct (decide (l = [])) as [->|Hl].
    { subst r. rewrite (new_events_app w _ []) by (cbn; by rewrite app_nil_r).
      split; [cbn; lia|done]. }
    destruct (publish_log environ l w Hl)
      as [_ [(Hr & Hev & _)|(k & batch & e & Hk & Hev & Hm & _)]];
      fold r in Hev; apply new_events_app in Hev; rewrite Hev.
    + rewrite length_map, batches_length. split; [lia|done].
    + pose proof (lookup_lt_Some _ _ _ Hk) as Hlt. rewrite batches_length in Hlt.
      rewrite length_app, length_map, length_take, batches_length.
      split; [cbn [length]; lia|].
      fold r in Hm. intros Hr. rewrite Hm in Hr. discriminate.
Qed.

(** X16: what the backend has accepted when a run ends.  The batches of
    the accepted writes of a run of [write_metrics_to_monitoring] hold, in
    order, the first [200 a] series of the list, where [a] is the number of
    accepted writes: the whole list when the run returns, and, when it
    raises, a whole number of full batches, one call short of the calls
    made. *)
Theorem write_metrics_accepted_prefix (l : list TimeSeries) (w : World B) :
  let r := write_metrics_to_monitoring environ l w in
  let accepted := accepted_batches (new_events w r.2) in
  concat accepted = take (200 * length accepted) l /\
  (r.1 = Ok tt -> concat accepted = l) /\
  (forall e,
     r.1 = Raise e ->
     length (new_events w r.2) = S (length accepted) /\
     length (concat accepted) = 200 * length accepted /\
     200 * length accepted < length l).
Proof.
  intros r accepted. subst accepted.
  destruct (decide (l = [])) as [->|Hl].
  { subst r. rewrite (new_events_app w _ []) by (cbn; by rewrite app_nil_r).
    split; [done|]. split; [done|]. intros e He. discriminate. }
  destruct (publish_log environ l w Hl)
    as [_ [(Hr & Hev & _)|(k & batch & e & Hk & Hev & Hm & _)]];
    fold r in Hev; apply new_events_app in Hev; rewrite Hev.
  - rewrite accepted_batches_accepted, concat_batches.
    split.
    { rewrite take_ge; [done|]. rewrite batches_length.
      pose proof (batch_count_covers (length l)). lia. }
    split; [done|]. intros e He. fold r in Hr. rewrite Hr in He. discriminate.
  - pose proof (lookup_lt_Some _ _ _ Hk) as Hlt. rewrite batches_length in Hlt.
    rewrite accepted_batches_app, accepted_batches_accepted.
    change (accepted_batches [write_event environ batch (Raise e)]) with
      (@nil (list TimeSeries)).
    rewrite app_nil_r, length_take, batches_length.
    replace (k `min` ((length l + 199) / 200)) with k by lia.
    rewrite concat_take_batches.
    pose proof (batch_count_tight (length l) k Hlt) as Htight.
    split; [done|]. split.
    { fold r in Hm. intros Hr. rewrite Hm in Hr. discriminate. }
    intros e' _. rewrite length_app, length_map, length_take, batches_length.
    split; [cbn [length]; lia|]. rewrite length_take. lia.
Qed.

(** X17: the progress records of a run that returns.  On a list of [n]
    series, [n] not 0, a run of [write_metrics_to_monitoring] that returns
    has logged one record per batch and nothing else: the record of the
    batch at index [k] reports the size of the batch, the running total
    [min(n, 200 (k + 1))] and [n].  The totals end at [n]. *)
Theorem write_metrics_progress_log (l : list TimeSeries) (w : World B) :
  let r := write_metrics_to_monitoring environ l w in
  let n := length l in
  l <> [] ->
  r.1 = Ok tt ->
  new_log w r.2 =
    map (fun k =>
           MkLogRecord INFO
             [Lit "Successfully wrote batch of "; FInt (200 `min` (n - 200 * k));
              Lit " time series (total: "; FInt (n `min` (200 * (k + 1)));
              Lit "/"; FInt n; Lit ")"])
        (seq 0 ((n + 199) / 200)) /\
  exists size,
    last (new_log w r.2) =
    Some (MkLogRecord INFO
            [Lit "Successfully wrote batch of "; FInt size;
             Lit " time series (total: "; FInt n; Lit "/"; FInt n; Lit ")"]).
Proof.
  intros r n Hl Hr. subst n.
  assert (Hlog : new_log w r.2 =
    map (fun k =>
           MkLogRecord INFO
             [Lit "Successfully wrote batch of ";
              FInt (200 `min` (length l - 200 * k));
              Lit " time series (total: ";
              FInt (length l `min` (200 * (k + 1)));
              Lit "/"; FInt (length l); Lit ")"])
        (seq 0 ((length l + 199) / 200))).
  { destruct (publish_log environ l w Hl)
      as [_ [(_ & _ & Hlog)|(k & batch & e & _ & _ & Hm & _)]].
    2:{ fold r in Hm. rewrite Hm in Hr. discriminate. }
    fold r in Hlog. rewrite (new_log_app w _ _ Hlog). unfold batch_size.
    rewrite range_from_zero, map_map. change (200 - 1) with 199.
    apply map_ext_in. intros k Hk. apply in_seq in Hk.
    pose proof (batch_count_tight (length l) k) as Htight.
    unfold log_batch_written, slice, batch_size.
    rewrite length_take, length_drop.
    replace ((k * 200 + 200 - k * 200) `min` (length l - k * 200))
      with (200 `min` (length l - 200 * k)) by lia.
    replace (k * 200 + 200 `min` (length l - 200 * k))
      with (length l `min` (200 * (k + 1))) by lia.
    done. }
  split; [exact Hlog|]. rewrite Hlog.
  assert (Hn : 0 < length l) by (destruct l; [done|cbn; lia]).
  pose proof (batch_count_covers (length l)) as Hcov.
  destruct ((length l + 199) / 200) as [|c] eqn:Hc; [lia|].
  assert (Hc' : c < (length l + 199) / 200) by lia.
  pose proof (batch_count_tight (length l) c Hc') as Htight.
  rewrite seq_S, map_app. cbn [map Nat.add]. rewrite last_snoc.
  replace (length l `min` (200 * (c + 1))) with (length l) by lia.
  by eexists.
Qed.

(** X18: a refused batch with a series that carries no project
    identifier.  When the write of a batch is refused and one of its series
    has no [project_id] label, [write_metrics_to_monitoring] still raises the
    refusal itself and makes no further call; the last record of the log
    lists one identifier per series of the batch, the empty text at the
    position of that series. *)
Theorem write_failure_unlabelled_batch
    (l : list TimeSeries) (w : World B) (k i : nat)
    (name : string) (batch : list TimeSeries) (e : exn) (ts : TimeSeries) :
  let r := write_metrics_to_monitoring environ l w in
  new_events w r.2 !! k = Some (EvCreateTimeSeries name batch (Raise e)) ->
  batch !! i = Some ts ->
  metric_labels ts !! "project_id" = None ->
  r.1 = Raise e /\
  length (new_events w r.2) = S k /\
  exists ids,
    last (new_log w r.2) = Some (log_failed_projects ids) /\
    length ids = length batch /\
    ids !! i = Some "".
Proof.
  intros r Hk Hi Hnone.
  destruct (publish_refused environ l w k name batch e Hk)
    as (Hr & Hb & Hev & Hlog).
  fold r in Hr, Hev, Hlog.
  pose proof (lookup_lt_Some _ _ _ Hb) as Hlt.
  split; [exact Hr|]. split.
  { rewrite Hev, length_app, length_map, length_take. cbn [length]. lia. }
  exists (failed_projects batch). split; [|split].
  - rewrite Hlog.
    change [log_write_failed e; log_failed_projects (failed_projects batch)]
      with ([log_write_failed e] ++ [log_failed_projects (failed_projects batch)]).
    rewrite app_assoc. apply last_snoc.
  - apply length_map.
  - unfold failed_projects. rewrite list_lookup_fmap, Hi. cbn.
    by rewrite Hnone.
Qed.

End PublisherCounts.

(** ** Further runs on the in-memory backend *)

Lemma main_ok_means_no_data_witness :
  let w := fake_world (MkFake [] [] (Ok []) None) in
  let r := main an_environ float_sum "" w in
  (forall name batch res, EvCreateTimeSeries name batch res ∉ new_events w r.2) /\
  last (new_log w r.2) = Some log_no_costs.
Proof.
  intros w r.
  destruct (main_ok_means_no_data an_environ float_sum "" w
              [Lit "No data to report"]) as (_ & _ & Hw & Hlast).
  - vm_compute. reflexivity.
  - split; [exact Hw|exact Hlast].
Defined.

Lemma main_rows_answer_500_witness :
  let w := fake_world (MkFake [] [] (Ok two_rows) None) in
  let r := main an_environ float_sum "" w in
  exists e,
    exn_class e = "AttributeError" /\
    r.1 = Ok ([Lit "Error: "; FStr (exn_str e)], 500%Z).
Proof.
  intros w r.
  destruct (main_rows_answer_500 an_environ float_sum "" w
              (the_query an_environ)
              (window_parameters (Datetime 739051 time_min) (Datetime 739052 time_min))
              (MkRow "proj-a" 12.5%float) [MkRow "proj-b" 3.25%float])
    as (e & Hclass & Hr & _).
  - vm_compute. apply list_elem_of_In. right. right. left. reflexivity.
  - by exists e.
Defined.

Lemma main_calls_address_project_witness :
  "projects/ops-monitoring" = "projects/" +:+ "ops-monitoring" /\
  md_type the_descriptor = CUSTOM_METRIC_TYPE.
Proof.
  apply (main_calls_address_project an_environ float_sum ""
           (fake_world (MkFake [] [] (Ok two_rows) None)) "ops-monitoring"
           (EvCreateMetricDescriptor "projects/ops-monitoring" the_descriptor
              (Ok tt))).
  - reflexivity.
  - vm_compute. apply list_elem_of_In. right. left. reflexivity.
Defined.

Lemma main_query_window_witness :
  query_parameters
    (window_parameters (Datetime 739051 time_min) (Datetime 739052 time_min)) =
  [MkScalarQueryParameter "start_time" "TIMESTAMP" (Datetime 739051 time_min);
   MkScalarQueryParameter "end_time" "TIMESTAMP" (Datetime 739052 time_min)].
Proof.
  destruct (main_query_window an_environ float_sum ""
              (fake_world (MkFake [] [] (Ok two_rows) None))
              (the_query an_environ)
              (window_parameters (Datetime 739051 time_min) (Datetime 739052 time_min))
              (Ok two_rows)) as (_ & _ & Hcfg & _).
  - vm_compute. apply list_elem_of_In. right. right. left. reflexivity.
  - exact Hcfg.
Defined.

Lemma billing_table_used_verbatim_witness :
  BILLING_TABLE an_environ_with_empty_table = "" /\
  the_query an_environ_with_empty_table = query_before_table +:+ query_after_table.
Proof.
  destruct (@billing_table_used_verbatim Fake _ _ an_environ_with_empty_table
              float_sum "") as (Ht & Hq & _).
  - reflexivity.
  - split; [exact Ht|exact Hq].
Defined.

Lemma write_metrics_progress_log_witness :
  let l := replicate 450 a_series in
  let w := fake_world (MkFake [] [] (Ok []) None) in
  let r := write_metrics_to_monitoring an_environ l w in
  new_log w r.2 =
    [log_batch_written l 0; log_batch_written l 200; log_batch_written l 400].
Proof.
  intros l w r.
  destruct (write_metrics_progress_log an_environ l w) as [Hlog _].
  - discriminate.
  - vm_compute. reflexivity.
  - fold r in Hlog. rewrite Hlog. vm_compute. reflexivity.
Defined.

Lemma write_failure_unlabelled_batch_witness :
  let l := [an_unlabelled_series] in
  let w := fake_world (MkFake [] [] (Ok []) (Some 0)) in
  let r := write_metrics_to_monitoring an_environ l w in
  r.1 = Raise backend_error /\
  last (new_log w r.2) = Some (log_failed_projects [""]).
Proof.
  intros l w r.
  destruct (write_failure_unlabelled_batch an_environ l w 0 0
              (project_name an_environ) [an_unlabelled_series] backend_error
              an_unlabelled_series) as (Hr & _ & ids & Hlast & Hlen & Hid).
  - vm_compute. reflexivity.
  - reflexivity.
  - reflexivity.
  - split; [exact Hr|]. fold r in Hlast. rewrite Hlast. do 2 f_equal.
    destruct ids as [|id [|id' ids]]; [done| |done].
    cbn in Hid. by injection Hid as ->.
Defined.

